(** * Invoice-manager frontend: subscription manager and checkout result screens

    A shallow embedding of [SubscriptionManager] and [CheckoutSuccess]
    (two React function components written in TypeScript) together with the
    properties their specification states about them.

    The components are untyped at run time: the data they render is whatever
    [res.json()] produced.  The embedding therefore works on JavaScript values
    ([JS.value]) with the language's own truthiness, property access, strict
    equality and numeric coercion, and a render is a computation that either
    yields a view or throws a [TypeError]. *)

From Stdlib Require Import String Ascii List ZArith Floats Bool Lia.
From stdpp Require Import base option list gmap strings numbers pretty.

Set Warnings "-register-all".
Local Open Scope string_scope.

(* ===================================================================== *)
(** ** JavaScript values *)
(* ===================================================================== *)

Module JS.

(** Numbers.  A JavaScript number is an IEEE-754 binary64 value, and so is
    a primitive float: the same rounding to nearest, the same two zeros, the
    same infinities, one NaN. *)
Definition number : Type := float.

Definition div (a b : number) : number := PrimFloat.div a b.
Definition mul (a b : number) : number := PrimFloat.mul a b.


(** Values as [JSON.parse] builds them, plus [undefined].  An object keeps its
    properties in insertion order, which is the order [JSON.stringify] writes
    them in.  Arrays are left out: no property the components read is one. *)
Inductive value :=
| VUndefined
| VNull
| VBool (b : bool)
| VNum (n : number)
| VStr (s : string)
| VObj (props : list (string * value)).

(** What evaluating an expression ends in: a value, or a thrown error.  The
    only error the components can raise themselves is the [TypeError] of
    reading a property of [undefined]/[null], of calling a missing method, or
    of converting an object that has no primitive value. *)
Inductive exn := TypeError.

Inductive completion (A : Type) :=
| Normal (a : A)
| Throw (e : exn).
Arguments Normal {A} a.
Arguments Throw {A} e.

Definition bind {A B} (c : completion A) (k : A -> completion B) : completion B :=
  match c with
  | Normal a => k a
  | Throw e => Throw e
  end.

Notation "'let*' x ':=' c 'in' k" := (bind c (fun x => k))
  (at level 10, x name, c at level 100, k at level 200).

(** [ToBoolean]: the falsy values are [undefined], [null], [false], [0],
    [NaN] and the empty string. *)
Definition ToBoolean (v : value) : bool :=
  match v with
  | VUndefined | VNull => false
  | VBool b => b
  | VNum n => negb (PrimFloat.eqb n 0 || PrimFloat.is_nan n)
  | VStr s => negb (bool_decide (s = ""))
  | VObj _ => true
  end.

Fixpoint lookupProp (k : string) (props : list (string * value)) : value :=
  match props with
  | [] => VUndefined
  | (k', v) :: rest => if bool_decide (k' = k) then v else lookupProp k rest
  end.

(** [v.k].  Reading a property of [undefined] or [null] throws; a primitive
    has none of the data properties the components ask for. *)
Definition Get (v : value) (k : string) : completion value :=
  match v with
  | VUndefined | VNull => Throw TypeError
  | VObj props => Normal (lookupProp k props)
  | VBool _ | VNum _ | VStr _ => Normal VUndefined
  end.

(** [v?.k]. *)
Definition OptGet (v : value) (k : string) : value :=
  match v with
  | VObj props => lookupProp k props
  | _ => VUndefined
  end.

Fixpoint hasOwn (k : string) (props : list (string * value)) : bool :=
  match props with
  | [] => false
  | (k', _) :: rest => bool_decide (k' = k) || hasOwn k rest
  end.

(** Whether [v] converts to a primitive.  An object made by [JSON.parse]
    inherits [valueOf], which returns the object itself, and [toString],
    which returns a string; its own properties are never callable.  So the
    conversion succeeds, through the inherited [toString], unless the object
    has an own property of that name, and then it throws a [TypeError]. *)
Definition coercible (v : value) : bool :=
  match v with
  | VObj props => negb (hasOwn "toString" props)
  | _ => true
  end.

(** A value put where a primitive is needed and kept as it is in the view:
    a template literal's [${v}], the argument of [new Date(v)]. *)
Definition primitiveArg (v : value) : completion value :=
  if coercible v then Normal v else Throw TypeError.

(** [v === 'literal']. *)
Definition strictEqualsString (v : value) (lit : string) : bool :=
  match v with
  | VStr s => bool_decide (s = lit)
  | _ => false
  end.

(** What belongs to the language runtime and is only called by the
    components: the two conversions between strings and numbers, and the
    string methods, which work on UTF-16 code units and the Unicode case
    tables. *)
Class Host := {
  StringToNumber : string -> number;
  NumberToString : number -> string;
  toUpperCase : string -> string;     (* [s.toUpperCase()] *)
  charAt : string -> nat -> string;   (* [s.charAt(i)] *)
  slice : string -> nat -> string     (* [s.slice(i)] *)
}.

(** [Number(v)], also what [/] applies to each operand.  An object converts
    through its string, ["[object Object]"], to [NaN], when it converts at
    all. *)
Definition ToNumber `{Host} (v : value) : completion number :=
  match v with
  | VUndefined => Normal nan
  | VNull => Normal 0%float
  | VBool b => Normal (if b then 1%float else 0%float)
  | VNum n => Normal n
  | VStr s => Normal (StringToNumber s)
  | VObj _ => if coercible v then Normal nan else Throw TypeError
  end.

(** [JSON.stringify]'s string quoting. *)
Definition hexDigit (n : nat) : ascii :=
  ascii_of_nat (if (n <? 10)%nat then 48 + n else 87 + n).

Definition dquote : ascii := ascii_of_nat 34.

Definition quoteChar (c : ascii) : string :=
  let n := nat_of_ascii c in
  if (n =? 34)%nat then String (ascii_of_nat 92) (String dquote EmptyString)
  else if (n =? 92)%nat then "\\"
  else if (n =? 8)%nat then "\b"
  else if (n =? 9)%nat then "\t"
  else if (n =? 10)%nat then "\n"
  else if (n =? 12)%nat then "\f"
  else if (n =? 13)%nat then "\r"
  else if (n <? 32)%nat
       then "\u00" ++ String (hexDigit (n / 16)) (String (hexDigit (n mod 16)) EmptyString)
  else String c EmptyString.

Fixpoint quoteChars (s : string) : string :=
  match s with
  | EmptyString => EmptyString
  | String c r => quoteChar c ++ quoteChars r
  end.

Definition QuoteJSONString (s : string) : string :=
  String dquote (quoteChars s) ++ String dquote EmptyString.

Fixpoint joinComma (parts : list string) : string :=
  match parts with
  | [] => ""
  | [p] => p
  | p :: rest => p ++ "," ++ joinComma rest
  end.

(** [JSON.stringify(v)]; [None] is the [undefined] it returns for
    [undefined].  A property whose value is [undefined] is skipped, and a
    number that is not finite is written [null]. *)
Fixpoint JSON_stringify `{Host} (v : value) : option string :=
  match v with
  | VUndefined => None
  | VNull => Some "null"
  | VBool b => Some (if b then "true" else "false")
  | VNum n => Some (if PrimFloat.is_finite n then NumberToString n else "null")
  | VStr s => Some (QuoteJSONString s)
  | VObj props =>
      let members :=
        (fix go (ps : list (string * value)) : list string :=
           match ps with
           | [] => []
           | (k, x) :: rest =>
               match JSON_stringify x with
               | Some t => (QuoteJSONString k ++ ":" ++ t) :: go rest
               | None => go rest
               end
           end) props in
      Some ("{" ++ joinComma members ++ "}")
  end.

End JS.

(* ===================================================================== *)
(** ** The query and mutation layer *)
(* ===================================================================== *)

(** The part of [@tanstack/react-query] the components rely on: a client-wide
    cache of queries found by key, [useQuery]'s view of one query,
    [invalidateQueries], and the status of a mutation. *)
Module ReactQuery.
Import JS.

Inductive QueryStatus := QPending | QError | QSuccess.

Record Query := mkQuery {
  data : value;            (* [undefined] until a fetch has succeeded *)
  error : value;           (* [null] unless the last fetch failed *)
  status : QueryStatus;
  isFetching : bool;
  failureCount : nat;
  isInvalidated : bool
}.

(** A query as [useQuery] creates it on mount: nothing cached, fetch started. *)
Definition newQuery : Query :=
  mkQuery VUndefined VNull QPending true 0 false.

(** What a fetch ends in. *)
Inductive Outcome :=
| Resolved (v : value)
| Rejected (e : value).

(** The settling of a fetch of a query that retries [retry] times: a failure
    is retried until [retry] failures have been counted and only the next one
    puts the query in the error state; a success replaces the data. *)
Definition settleQuery (retry : nat) (o : Outcome) (q : Query) : Query :=
  match o with
  | Resolved v => mkQuery v VNull QSuccess false 0 false
  | Rejected e =>
      if (failureCount q <? retry)%nat
      then mkQuery (data q) (error q) (status q) true (S (failureCount q)) (isInvalidated q)
      else mkQuery (data q) e QError false (S (failureCount q)) (isInvalidated q)
  end.

(** The flags [useQuery] hands to the component. *)
Definition isLoading (q : Query) : bool :=
  isFetching q && match status q with QPending => true | _ => false end.

Definition useQuery (queryKey : list string) (cache : gmap (list string) Query) : Query :=
  default newQuery (cache !! queryKey).

(** [invalidateQueries({ queryKey })] marks every query whose key starts with
    [queryKey] as invalidated and, the query being mounted, starts a fetch of
    it.  The cached data is kept.  A query that has data keeps its status and
    error until that fetch settles; one that has none goes back to pending. *)
Definition invalidate (q : Query) : Query :=
  match data q with
  | VUndefined => mkQuery VUndefined VNull QPending true 0 true
  | d => mkQuery d (error q) (status q) true 0 true
  end.

Definition matchesKey (queryKey k : list string) : bool :=
  bool_decide (queryKey `prefix_of` k).

Definition invalidateQueries (queryKey : list string)
    (cache : gmap (list string) Query) : gmap (list string) Query :=
  map_imap (fun k q => Some (if matchesKey queryKey k then invalidate q else q)) cache.

Inductive MutationStatus := MIdle | MPending | MSuccess | MError.

Definition isPending (s : MutationStatus) : bool :=
  match s with MPending => true | _ => false end.

End ReactQuery.

(* ===================================================================== *)
(** ** SubscriptionManager *)
(* ===================================================================== *)

Module SubscriptionManager.
Import JS ReactQuery.

(** *** State *)

Inductive Mutation := Sync | Cancel | Reactivate.

(** A call of [fetch(url, { method, headers, body })]. *)
Record Request := mkRequest {
  url : string;
  method : string;
  headers : list (string * string);
  body : option string
}.

(** The component's hooks: the query client, the [isCancelling] state
    variable, the three mutations, and the requests the mutation functions
    have sent so far (oldest first). *)
Record State := mkState {
  queryClient : gmap (list string) Query;
  isCancelling : bool;
  syncMutation : MutationStatus;
  cancelMutation : MutationStatus;
  reactivateMutation : MutationStatus;
  network : list Request
}.

Definition mutationStatus (m : Mutation) (st : State) : MutationStatus :=
  match m with
  | Sync => syncMutation st
  | Cancel => cancelMutation st
  | Reactivate => reactivateMutation st
  end.

Definition setMutationStatus (m : Mutation) (s : MutationStatus) (st : State) : State :=
  match m with
  | Sync =>
      mkState (queryClient st) (isCancelling st) s (cancelMutation st)
        (reactivateMutation st) (network st)
  | Cancel =>
      mkState (queryClient st) (isCancelling st) (syncMutation st) s
        (reactivateMutation st) (network st)
  | Reactivate =>
      mkState (queryClient st) (isCancelling st) (syncMutation st)
        (cancelMutation st) s (network st)
  end.

Definition setIsCancelling (b : bool) (st : State) : State :=
  mkState (queryClient st) b (syncMutation st) (cancelMutation st)
    (reactivateMutation st) (network st).

Definition setQueryClient (c : gmap (list string) Query) (st : State) : State :=
  mkState c (isCancelling st) (syncMutation st) (cancelMutation st)
    (reactivateMutation st) (network st).

Definition send (r : Request) (st : State) : State :=
  mkState (queryClient st) (isCancelling st) (syncMutation st) (cancelMutation st)
    (reactivateMutation st) (network st ++ [r]).

Definition subscriptionKey : list string := ["subscription"].
Definition usageKey : list string := ["subscription-usage"].

(** Both queries are declared with [retry: 2]. *)
Definition queryRetry : nat := 2.

Definition querySettled (k : list string) (o : Outcome) (st : State) : State :=
  setQueryClient (alter (settleQuery queryRetry o) k (queryClient st)) st.

(** *** Mutations *)

Section Mutations.
Context `{Host}.

(** The three [mutationFn]s. *)
Definition mutationFn (m : Mutation) (variables : value) : Request :=
  match m with
  | Sync => mkRequest "/api/subscriptions/sync" "POST" [] None
  | Cancel =>
      mkRequest "/api/subscriptions/cancel" "POST"
        [("Content-Type", "application/json")]
        (JSON_stringify (VObj [("subscription_id", variables)]))
  | Reactivate =>
      mkRequest "/api/subscriptions/reactivate" "POST"
        [("Content-Type", "application/json")]
        (JSON_stringify (VObj [("subscription_id", variables)]))
  end.

(** What a callback does, in order. *)
Inductive Command :=
| InvalidateQueries (queryKey : list string)
| SetIsCancelling (b : bool).

(** The three [onSuccess] callbacks. *)
Definition onSuccess (m : Mutation) : list Command :=
  match m with
  | Sync => [InvalidateQueries ["subscription"]; InvalidateQueries ["subscription-usage"]]
  | Cancel =>
      [InvalidateQueries ["subscription"]; InvalidateQueries ["subscription-usage"];
       SetIsCancelling false]
  | Reactivate => [InvalidateQueries ["subscription"]; InvalidateQueries ["subscription-usage"]]
  end.

(** No mutation declares an [onError] or [onSettled] callback. *)
Definition onError (m : Mutation) : list Command := [].

Definition exec (c : Command) (st : State) : State :=
  match c with
  | InvalidateQueries k => setQueryClient (invalidateQueries k (queryClient st)) st
  | SetIsCancelling b => setIsCancelling b st
  end.

Definition execAll (cs : list Command) (st : State) : State :=
  foldl (fun s c => exec c s) st cs.

(** [mutation.mutate(variables)]: the mutation becomes pending and its
    function is called. *)
Definition mutate (m : Mutation) (variables : value) (st : State) : State :=
  send (mutationFn m variables) (setMutationStatus m MPending st).

(** The settling of a pending mutation.  No mutation sets [retry], and a
    mutation's default is not to retry: a rejection ends it at once. *)
Definition mutationSettled (m : Mutation) (o : Outcome) (st : State) : State :=
  if isPending (mutationStatus m st) then
    match o with
    | Resolved _ => setMutationStatus m MSuccess (execAll (onSuccess m) st)
    | Rejected _ => setMutationStatus m MError (execAll (onError m) st)
    end
  else st.

(** *** Event handlers *)

Definition subscription (st : State) : value :=
  data (useQuery subscriptionKey (queryClient st)).

Definition usage (st : State) : value :=
  data (useQuery usageKey (queryClient st)).

Definition handleCancel (st : State) : State :=
  let id := OptGet (subscription st) "stripe_subscription_id" in
  if ToBoolean id then mutate Cancel id (setIsCancelling true st) else st.

Definition handleReactivate (st : State) : State :=
  let id := OptGet (subscription st) "stripe_subscription_id" in
  if ToBoolean id then mutate Reactivate id st else st.

Definition handleSync (st : State) : State :=
  mutate Sync VUndefined st.

End Mutations.

(** *** The view *)

Inductive Handler := HandleSync | HandleCancel | HandleReactivate | ReloadPage.

Record Button := mkButton {
  onClick : Handler;
  disabled : bool;
  label : string
}.

Inductive IconName := CheckCircle | XCircle | AlertCircle.

Record Icon := mkIcon {
  iconName : IconName;
  iconClass : string
}.

(** The child [cond && <element>] puts in the tree: the element, or the
    falsy value of [cond] itself. *)
Inductive child (A : Type) :=
| Element (a : A)
| Skipped (v : value).
Arguments Element {A} a.
Arguments Skipped {A} v.

(** Values handed to React as text are kept as they are; a date is kept as
    the value given to [new Date]. *)
Record SubscriptionCard := mkSubscriptionCard {
  badgeClass : string;
  badgeIcon : Icon;
  badgeText : value;
  subscriptionId : value;
  priceId : value;
  periodStart : value;
  periodEnd : value;
  actions : list Button
}.

Inductive SubscriptionSection :=
| CurrentSubscription (card : SubscriptionCard)
| NoActiveSubscription.

Inductive RemainingText :=
| UnlimitedAvailable                      (* 'Unlimited connections available' *)
| ConnectionsRemaining (remaining : value). (* `${remaining} connections remaining` *)

(** [barWidth] is the number of percent of the bar's [width] style. *)
Record UsageCard := mkUsageCard {
  usedText : value;
  limitText : value;
  barWidth : number;
  remainingText : RemainingText
}.

Record BillingCard := mkBillingCard {
  nextBillingDate : value;
  billingStatusClass : string;
  billingStatus : string;
  latestInvoice : child value
}.

Record Layout := mkLayout {
  syncButton : Button;
  syncSpinning : bool;
  subscriptionSection : SubscriptionSection;
  usageSection : child UsageCard;
  billingSection : child BillingCard
}.

Inductive View :=
| LoadingView
| ErrorView (retry : Button)
| LayoutView (l : Layout).

(** *** View-model functions *)

Definition getStatusIcon (status : value) : Icon :=
  if strictEqualsString status "active" then mkIcon CheckCircle "w-5 h-5 text-green-500"
  else if strictEqualsString status "canceled" then mkIcon XCircle "w-5 h-5 text-red-500"
  else if strictEqualsString status "past_due" then mkIcon AlertCircle "w-5 h-5 text-yellow-500"
  else mkIcon AlertCircle "w-5 h-5 text-gray-500".

Definition getStatusColor (status : value) : string :=
  if strictEqualsString status "active" then "text-green-600 bg-green-100"
  else if strictEqualsString status "canceled" then "text-red-600 bg-red-100"
  else if strictEqualsString status "past_due" then "text-yellow-600 bg-yellow-100"
  else "text-gray-600 bg-gray-100".

Section Render.
Context `{Host}.

(** [status.charAt(0).toUpperCase() + status.slice(1)]: only a string has
    the two methods. *)
Definition capitalize (status : value) : completion string :=
  match status with
  | VStr s => Normal (toUpperCase (charAt s 0) ++ slice s 1)
  | _ => Throw TypeError
  end.

(** The [width] of the usage bar, in percent:
    [limit === 'unlimited' ? '100%' : `${(used / Number(limit)) * 100}%`]. *)
Definition barWidthPercent (used limit : value) : completion number :=
  if strictEqualsString limit "unlimited" then Normal 100%float
  else
    let* l := ToNumber limit in
    let* u := ToNumber used in
    Normal (mul (div u l) 100%float).

Definition remainingTextOf (remaining : value) : completion RemainingText :=
  if strictEqualsString remaining "unlimited" then Normal UnlimitedAvailable
  else
    let* r := primitiveArg remaining in
    Normal (ConnectionsRemaining r).

(** *** Rendering *)

Definition cancelButton (st : State) : Button :=
  mkButton HandleCancel
    (isCancelling st || isPending (cancelMutation st))
    (if isPending (cancelMutation st) then "Cancelling..." else "Cancel Subscription").

Definition reactivateButton (st : State) : Button :=
  mkButton HandleReactivate
    (isPending (reactivateMutation st))
    (if isPending (reactivateMutation st) then "Reactivating..." else "Reactivate Subscription").

Definition actionButtons (st : State) (status : value) : list Button :=
  (if strictEqualsString status "active" then [cancelButton st] else [])
  ++ (if strictEqualsString status "canceled" then [reactivateButton st] else []).

Definition renderSubscription (st : State) : completion SubscriptionSection :=
  let sub := subscription st in
  if ToBoolean sub then
    let* status := Get sub "status" in
    let* id := Get sub "stripe_subscription_id" in
    let* price := Get sub "price_id" in
    let* pstart := Get sub "current_period_start" in
    let* pstart := primitiveArg pstart in
    let* pend := Get sub "current_period_end" in
    let* pend := primitiveArg pend in
    Normal (CurrentSubscription
              (mkSubscriptionCard (getStatusColor status) (getStatusIcon status) status
                 id price pstart pend (actionButtons st status)))
  else Normal NoActiveSubscription.

Definition renderUsage (st : State) : completion (child UsageCard) :=
  let u := usage st in
  let has := OptGet u "has_subscription" in
  if ToBoolean has then
    let* uu := Get u "usage" in
    if ToBoolean uu then
      let* ec := Get uu "email_connections" in
      let* used := Get ec "used" in
      let* limit := Get ec "limit" in
      let* width := barWidthPercent used limit in
      let* remaining := Get ec "remaining" in
      let* text := remainingTextOf remaining in
      Normal (Element (mkUsageCard used limit width text))
    else Normal (Skipped uu)
  else Normal (Skipped has).

Definition renderBilling (st : State) : completion (child BillingCard) :=
  let sub := subscription st in
  if ToBoolean sub then
    let* pend := Get sub "current_period_end" in
    let* pend := primitiveArg pend in
    let* status := Get sub "status" in
    let* text := capitalize status in
    let* invoice := Get sub "latest_invoice_id" in
    Normal (Element (mkBillingCard pend (getStatusColor status) text
                       (if ToBoolean invoice then Element invoice else Skipped invoice)))
  else Normal (Skipped sub).

Definition renderLayout (st : State) : completion View :=
  let* s := renderSubscription st in
  let* u := renderUsage st in
  let* b := renderBilling st in
  Normal (LayoutView
            (mkLayout
               (mkButton HandleSync (isPending (syncMutation st)) "Sync from Stripe")
               (isPending (syncMutation st)) s u b)).

Definition retryButton : Button := mkButton ReloadPage false "Retry".

(** The component function. *)
Definition render (st : State) : completion View :=
  let subscriptionQuery := useQuery subscriptionKey (queryClient st) in
  let usageQuery := useQuery usageKey (queryClient st) in
  if isLoading subscriptionQuery || isLoading usageQuery then Normal LoadingView
  else if ToBoolean (error subscriptionQuery) then Normal (ErrorView retryButton)
  else renderLayout st.

End Render.

(** The buttons a view shows. *)
Definition viewButtons (v : View) : list Button :=
  match v with
  | LoadingView => []
  | ErrorView b => [b]
  | LayoutView l =>
      syncButton l ::
      match subscriptionSection l with
      | CurrentSubscription card => actions card
      | NoActiveSubscription => []
      end
  end.

(** The keys a callback invalidates, in order. *)
Definition invalidatedKeys (cs : list Command) : list (list string) :=
  omap (fun c => match c with
                 | InvalidateQueries k => Some k
                 | SetIsCancelling _ => None
                 end) cs.

(** *** Reference states *)

(** The component just mounted: both queries created and fetching. *)
Definition initial : State :=
  mkState (<[subscriptionKey := newQuery]> (<[usageKey := newQuery]> ∅))
    false MIdle MIdle MIdle [].

(** Both fetches have succeeded, with [sub] and [usg] as their data. *)
Definition loaded (sub usg : value) : State :=
  querySettled usageKey (Resolved usg) (querySettled subscriptionKey (Resolved sub) initial).

(** An active subscription with id [sub_123], and a usage of 8 out of 10. *)
Definition activeSubscription : value :=
  VObj [("id", VStr "1"); ("stripe_subscription_id", VStr "sub_123");
        ("price_id", VStr "price_1"); ("status", VStr "active");
        ("current_period_start", VStr "2025-01-01T00:00:00Z");
        ("current_period_end", VStr "2025-02-01T00:00:00Z")].

Definition usage8of10 : value :=
  VObj [("has_subscription", VBool true);
        ("usage",
         VObj [("email_connections",
                VObj [("used", VNum 8%float); ("limit", VNum 10%float);
                      ("remaining", VNum 2%float)])])].







Definition quoted (s : string) : string :=
  String dquote s ++ String dquote EmptyString.

(** The text [{"subscription_id":"sub_123"}]. *)
Definition cancelBody_sub_123 : string :=
  "{" ++ quoted "subscription_id" ++ ":" ++ quoted "sub_123" ++ "}".

End SubscriptionManager.

(* ===================================================================== *)
(** ** CheckoutSuccess *)
(* ===================================================================== *)

Module CheckoutSuccess.
Import JS ReactQuery.

(** The component's hooks: [sessionId] is [searchParams.get('session_id')]
    ([None] for [null]), [isLoading] the state variable, [session] and
    [error] the [data] and [error] of the checkout-session query. *)
Record State := mkState {
  sessionId : option string;
  isLoading : bool;
  session : value;
  error : value
}.

(** [enabled: !!sessionId]. *)
Definition enabled (st : State) : bool :=
  match sessionId st with
  | None => false
  | Some s => ToBoolean (VStr s)
  end.

(** The effect [if (session || error) setIsLoading(false)].  It reads nothing
    but [session] and [error], its two dependencies, so running it after
    every update gives the state that running it on their changes gives. *)
Definition effect (st : State) : State :=
  if ToBoolean (session st) || ToBoolean (error st)
  then mkState (sessionId st) false (session st) (error st)
  else st.

(** First render and its effect: [useState(true)], nothing fetched yet. *)
Definition mount (sessionId : option string) : State :=
  effect (mkState sessionId true VUndefined VNull).

(** The [Error] the query layer raises itself when the query function
    resolves with [undefined], which it does not accept as data. *)
Definition undefinedDataError : value :=
  VObj [("message", VStr "data is undefined")].

(** The query settles (after its retries) and the component re-renders.  A
    disabled query never fetches, so nothing is ever delivered to it.
    [Resolved d] is what [getSession] resolved with: [undefined] ends as the
    query's error, any other value as its data. *)
Definition deliver (o : Outcome) (st : State) : State :=
  if enabled st then
    effect
      match o with
      | Resolved VUndefined =>
          mkState (sessionId st) (isLoading st) (session st) undefinedDataError
      | Resolved d => mkState (sessionId st) (isLoading st) d VNull
      | Rejected e => mkState (sessionId st) (isLoading st) (session st) e
      end
  else st.

Definition run (os : list Outcome) (st : State) : State :=
  foldl (fun s o => deliver o s) st os.

(** The payment details: [amount] is the number given to [toFixed(2)],
    [currency] the upper-cased code. *)
Record PaymentDetails := mkPaymentDetails {
  amount : number;
  currency : string;
  paymentStatus : value;
  customerEmail : value
}.

Inductive View :=
| LoadingView
| FailureView                              (* 'Payment Failed' *)
| SuccessView (details : option PaymentDetails). (* 'Payment Successful!' *)

Section Render.
Context `{Host}.

Definition renderDetails (s : value) : completion PaymentDetails :=
  let* total := Get s "amount_total" in
  let* total := ToNumber total in
  let* cur := Get s "currency" in
  let* code := match cur with
               | VStr c => Normal (toUpperCase c)
               | _ => Throw TypeError
               end in
  let* pstatus := Get s "payment_status" in
  let* email := Get s "customer_email" in
  Normal (mkPaymentDetails (div total 100%float) code pstatus email).

(** The component function. *)
Definition render (st : State) : completion View :=
  if isLoading st then Normal LoadingView
  else if ToBoolean (error st) || negb (ToBoolean (session st)) then Normal FailureView
  else if ToBoolean (session st)
       then let* d := renderDetails (session st) in Normal (SuccessView (Some d))
       else Normal (SuccessView None).

End Render.

End CheckoutSuccess.

(* ===================================================================== *)
(** ** The manager's event loop *)
(* ===================================================================== *)

(** What can happen to a mounted SubscriptionManager: a click handler is
    called, a mutation settles, a query fetch settles.  The handlers
    themselves have no guard, and a button is disabled only by a later
    render, so a handler may be called in any state. *)
Module ManagerEvents.
Import JS ReactQuery SubscriptionManager.

#[global] Instance Handler_eq_dec : EqDecision Handler.
Proof. solve_decision. Defined.

Inductive Event :=
| Click (h : Handler)
| MutationSettles (m : Mutation) (o : Outcome)
| QuerySettles (k : list string) (o : Outcome).

(** The two events that can clear [isCancelling]: a cancel succeeds, the
    page is reloaded. *)
Definition clearsCancelling (e : Event) : bool :=
  match e with
  | Click ReloadPage => true
  | MutationSettles Cancel (Resolved _) => true
  | _ => false
  end.

(** The characters [JSON.stringify] writes as they are: anything from the
    space on except the double quote and the backslash. *)
Definition plainChar (c : ascii) : bool :=
  let n := nat_of_ascii c in
  (32 <=? n)%nat && negb (n =? 34)%nat && negb (n =? 92)%nat.

Fixpoint plainString (s : string) : bool :=
  match s with
  | EmptyString => true
  | String c r => plainChar c && plainString r
  end.

Section Loop.
Context `{Host}.

(** [window.location.reload()] starts the page, and with it the component
    and the query client, afresh. *)
Definition dispatch (h : Handler) (st : State) : State :=
  match h with
  | HandleSync => handleSync st
  | HandleCancel => handleCancel st
  | HandleReactivate => handleReactivate st
  | ReloadPage => initial
  end.

Definition step (e : Event) (st : State) : State :=
  match e with
  | Click h => dispatch h st
  | MutationSettles m o => mutationSettled m o st
  | QuerySettles k o => querySettled k o st
  end.

Definition run (es : list Event) (st : State) : State :=
  foldl (fun s e => step e s) st es.

(** A request as a handler sends it: the sync request, or a cancel or
    reactivate request made from a truthy subscription id. *)
Definition sentByHandler (r : Request) : Prop :=
  r = mutationFn Sync VUndefined
  \/ exists (m : Mutation) (id : value),
       m <> Sync /\ ToBoolean id = true /\ r = mutationFn m id.

End Loop.

End ManagerEvents.

(** What the checkout-session query can deliver to CheckoutSuccess. *)
Module CheckoutEvents.
Import JS ReactQuery.

(** The outcome puts a truthy session or a truthy error in the component;
    resolving with [undefined] does, being turned into an error. *)
Definition carriesValue (o : Outcome) : bool :=
  match o with
  | Resolved VUndefined => true
  | Resolved d => ToBoolean d
  | Rejected e => ToBoolean e
  end.

(** While the loading flag is set, neither a session nor an error is there. *)
Definition settled (st : CheckoutSuccess.State) : Prop :=
  CheckoutSuccess.isLoading st = true ->
  ToBoolean (CheckoutSuccess.session st) = false
  /\ ToBoolean (CheckoutSuccess.error st) = false.

End CheckoutEvents.

(* ===================================================================== *)
(** ** A host for closed examples *)
(* ===================================================================== *)


Module ExampleHost.
Import JS.

Definition digitValue (c : ascii) : option Z :=
  let n := nat_of_ascii c in
  if (48 <=? n)%nat && (n <=? 57)%nat then Some (Z.of_nat (n - 48)) else None.

Fixpoint parseDigits (acc : Z) (s : string) : option Z :=
  match s with
  | EmptyString => Some acc
  | String c r =>
      match digitValue c with
      | Some d => parseDigits (10 * acc + d) r
      | None => None
      end
  end.

(** The empty string is [0], a string of decimal digits is its value, and a
    string with any other character in it is taken as not numeric. *)
Definition decimalStringToNumber (s : string) : number :=
  match parseDigits 0 s with
  | Some z => PrimFloat.of_uint63 (Uint63.of_Z z)
  | None => nan
  end.

(** A whole number is written in decimal; other numbers by name. *)
Definition integerToString (n : number) : string :=
  match Prim2SF n with
  | S754_zero _ => "0"
  | S754_infinity false => "Infinity"
  | S754_infinity true => "-Infinity"
  | S754_nan => "NaN"
  | S754_finite negative m e =>
      let whole :=
        if (0 <=? e)%Z then Some (Z.pos m * 2 ^ e)%Z
        else if (Z.pos m mod 2 ^ (- e) =? 0)%Z then Some (Z.pos m / 2 ^ (- e))%Z
        else None in
      match whole with
      | Some z => (if negative then "-" else "") ++ pretty z
      | None => "NaN"
      end
  end.

Definition asciiUpper (c : ascii) : ascii :=
  let n := nat_of_ascii c in
  if (97 <=? n)%nat && (n <=? 122)%nat then ascii_of_nat (n - 32) else c.

Fixpoint asciiToUpperCase (s : string) : string :=
  match s with
  | EmptyString => EmptyString
  | String c r => String (asciiUpper c) (asciiToUpperCase r)
  end.

Fixpoint asciiSlice (s : string) (i : nat) : string :=
  match i, s with
  | S j, String _ r => asciiSlice r j
  | _, _ => s
  end.

Definition asciiCharAt (s : string) (i : nat) : string :=
  match asciiSlice s i with
  | EmptyString => EmptyString
  | String c _ => String c EmptyString
  end.

(** A host to instantiate the closed examples with.  Its functions are the
    language's on ASCII strings, on strings of decimal digits and on whole
    numbers below 2^53; the examples call them on nothing else. *)
Definition host : Host :=
  {| StringToNumber := decimalStringToNumber;
     NumberToString := integerToString;
     toUpperCase := asciiToUpperCase;
     charAt := asciiCharAt;
     slice := asciiSlice |}.

End ExampleHost.

(* ===================================================================== *)
(** ** Properties: view-model functions *)
(* ===================================================================== *)

Section ViewModel.
Import JS ReactQuery SubscriptionManager.
Context `{Host}.








Lemma strictEqualsString_true (v : value) (lit : string) :
  strictEqualsString v lit = true <-> v = VStr lit.
Proof.
  destruct v; simpl; try (split; [discriminate | intros [=]]).
  rewrite bool_decide_eq_true. split; [intros ->; reflexivity | intros [=]; assumption].
Qed.

Lemma strictEqualsString_false (v : value) (lit : string) :
  strictEqualsString v lit = false <-> v <> VStr lit.
Proof.
  rewrite <- strictEqualsString_true. destruct (strictEqualsString v lit); split;
    intros; congruence.
Qed.

(** C6.  [getStatusColor] and [getStatusIcon] are total functions of the
    status, whatever value it is: 'active', 'canceled' and 'past_due' get
    their green, red and yellow tokens, and every other status, string or
    not, gets the gray ones. *)
Theorem status_tokens_total_with_gray_fallback (status : value) :
  getStatusColor (VStr "active") = "text-green-600 bg-green-100"
  /\ getStatusColor (VStr "canceled") = "text-red-600 bg-red-100"
  /\ getStatusColor (VStr "past_due") = "text-yellow-600 bg-yellow-100"
  /\ getStatusIcon (VStr "active") = mkIcon CheckCircle "w-5 h-5 text-green-500"
  /\ getStatusIcon (VStr "canceled") = mkIcon XCircle "w-5 h-5 text-red-500"
  /\ getStatusIcon (VStr "past_due") = mkIcon AlertCircle "w-5 h-5 text-yellow-500"
  /\ (status <> VStr "active" -> status <> VStr "canceled" -> status <> VStr "past_due" ->
      getStatusColor status = "text-gray-600 bg-gray-100"
      /\ getStatusIcon status = mkIcon AlertCircle "w-5 h-5 text-gray-500").
Proof.
  repeat (split; [reflexivity|]).
  intros Ha Hc Hp.
  apply strictEqualsString_false in Ha, Hc, Hp.
  unfold getStatusColor, getStatusIcon. rewrite Ha, Hc, Hp. split; reflexivity.
Qed.

End ViewModel.

Section ViewModelExamples.
Import JS SubscriptionManager.



(** The specification's other examples: 5 of 10 is 50%, 0 of 10 is 0%,
    8 of 10 is 80%, 5 of 'unlimited' is 100%; and 11 of 20 is the double next
    above 55. *)
Example barWidth_examples :
  barWidthPercent (H := ExampleHost.host) (VNum 5%float) (VNum 10%float) = Normal 50%float
  /\ barWidthPercent (H := ExampleHost.host) (VNum 0%float) (VNum 10%float) = Normal 0%float
  /\ barWidthPercent (H := ExampleHost.host) (VNum 8%float) (VNum 10%float) = Normal 80%float
  /\ barWidthPercent (H := ExampleHost.host) (VNum 5%float) (VStr "unlimited")
     = Normal 100%float
  /\ barWidthPercent (H := ExampleHost.host) (VNum 11%float) (VNum 20%float)
     = Normal 0x1.b800000000001p+5%float.
Proof. repeat split; vm_compute; reflexivity. Qed.

End ViewModelExamples.

(* ===================================================================== *)
(** ** Properties: what SubscriptionManager renders *)
(* ===================================================================== *)

Section RenderProperties.
Import JS ReactQuery SubscriptionManager.
Context `{Host}.

Lemma bind_Normal {A B} (c : completion A) (k : A -> completion B) (b : B) :
  bind c k = Normal b -> exists a, c = Normal a /\ k a = Normal b.
Proof. destruct c as [a|e]; simpl; [eauto | discriminate]. Qed.

Lemma Get_truthy (v : value) (k : string) :
  ToBoolean v = true -> Get v k = Normal (OptGet v k).
Proof. destruct v; simpl; try discriminate; reflexivity. Qed.


Lemma capitalize_Normal (status : value) (text : string) :
  capitalize status = Normal text -> exists s, status = VStr s.
Proof. destruct status; simpl; try discriminate; eauto. Qed.

(** With data in the subscription query the first card, when it renders, is
    the subscription card, whose buttons are [actionButtons] of the status. *)
Lemma renderSubscription_truthy (st : State) (sec : SubscriptionSection) :
  ToBoolean (subscription st) = true ->
  renderSubscription st = Normal sec ->
  exists card,
    sec = CurrentSubscription card
    /\ badgeText card = OptGet (subscription st) "status"
    /\ badgeClass card = getStatusColor (OptGet (subscription st) "status")
    /\ periodEnd card = OptGet (subscription st) "current_period_end"
    /\ actions card = actionButtons st (OptGet (subscription st) "status").
Proof.
  intros Ht. unfold renderSubscription. rewrite Ht.
  repeat rewrite (Get_truthy _ _ Ht). simpl. unfold primitiveArg.
  destruct (coercible (OptGet (subscription st) "current_period_start")); [|discriminate].
  simpl.
  destruct (coercible (OptGet (subscription st) "current_period_end")); [|discriminate].
  simpl. intros [= <-]. eexists. repeat split; reflexivity.
Qed.


Lemma renderSubscription_falsy (st : State) :
  ToBoolean (subscription st) = false ->
  renderSubscription st = Normal NoActiveSubscription.
Proof. intros Hf. unfold renderSubscription. rewrite Hf. reflexivity. Qed.

Lemma renderBilling_falsy (st : State) :
  ToBoolean (subscription st) = false ->
  renderBilling st = Normal (Skipped (subscription st)).
Proof. intros Hf. unfold renderBilling. rewrite Hf. reflexivity. Qed.

Lemma renderBilling_truthy (st : State) (b : child BillingCard) :
  ToBoolean (subscription st) = true ->
  renderBilling st = Normal b ->
  exists s,
    OptGet (subscription st) "status" = VStr s
    /\ b = Element
             (mkBillingCard (OptGet (subscription st) "current_period_end")
                (getStatusColor (VStr s)) (toUpperCase (charAt s 0) ++ slice s 1)
                (if ToBoolean (OptGet (subscription st) "latest_invoice_id")
                 then Element (OptGet (subscription st) "latest_invoice_id")
                 else Skipped (OptGet (subscription st) "latest_invoice_id"))).
Proof.
  intros Ht. unfold renderBilling. rewrite Ht.
  repeat rewrite (Get_truthy _ _ Ht). simpl. unfold primitiveArg.
  destruct (coercible (OptGet (subscription st) "current_period_end")); [|discriminate].
  simpl. destruct (OptGet (subscription st) "status"); simpl; try discriminate.
  intros [= <-]. eauto.
Qed.

Lemma renderUsage_no_subscription (st : State) :
  ToBoolean (OptGet (usage st) "has_subscription") = false ->
  renderUsage st = Normal (Skipped (OptGet (usage st) "has_subscription")).
Proof. intros Hf. unfold renderUsage. rewrite Hf. reflexivity. Qed.

Lemma renderLayout_Normal (st : State) (v : View) :
  renderLayout st = Normal v ->
  exists s u b,
    renderSubscription st = Normal s
    /\ renderUsage st = Normal u
    /\ renderBilling st = Normal b
    /\ v = LayoutView
             (mkLayout (mkButton HandleSync (isPending (syncMutation st)) "Sync from Stripe")
                (isPending (syncMutation st)) s u b).
Proof.
  unfold renderLayout. intros Hv.
  apply bind_Normal in Hv as (s & Hs & Hv).
  apply bind_Normal in Hv as (u & Hu & Hv).
  apply bind_Normal in Hv as (b & Hb & Hv).
  injection Hv as <-. eauto 10.
Qed.

(** The three exits of the component function. *)
Lemma render_cases (st : State) :
  let sq := useQuery subscriptionKey (queryClient st) in
  let uq := useQuery usageKey (queryClient st) in
  (isLoading sq || isLoading uq = true /\ render st = Normal LoadingView)
  \/ (isLoading sq || isLoading uq = false /\ ToBoolean (error sq) = true
      /\ render st = Normal (ErrorView retryButton))
  \/ (isLoading sq || isLoading uq = false /\ ToBoolean (error sq) = false
      /\ render st = renderLayout st).
Proof.
  unfold render. cbv zeta.
  destruct (isLoading _ || isLoading _); [left; auto|].
  destruct (ToBoolean _); [right; left; auto | right; right; auto].
Qed.

Lemma render_layout (st : State) (l : Layout) :
  render st = Normal (LayoutView l) -> renderLayout st = Normal (LayoutView l).
Proof.
  destruct (render_cases st) as [(_ & E) | [(_ & _ & E) | (_ & _ & E)]];
    rewrite E; [discriminate | discriminate | auto].
Qed.

Lemma actionButtons_handlers (st : State) (status : value) :
  map onClick (actionButtons st status)
  = if strictEqualsString status "active" then [HandleCancel]
    else if strictEqualsString status "canceled" then [HandleReactivate]
    else [].
Proof.
  unfold actionButtons.
  destruct (strictEqualsString status "active") eqn:Ea.
  - apply strictEqualsString_true in Ea. subst status. reflexivity.
  - destruct (strictEqualsString status "canceled"); reflexivity.
Qed.

(** C7.  Whenever the manager renders its layout for a fetched subscription,
    the status is a string and decides the actions of the subscription card:
    'active' gives the Cancel button alone, 'canceled' the Reactivate button
    alone, and any other status no button. *)
Theorem actions_determined_by_status (st : State) (l : Layout) :
  render st = Normal (LayoutView l) ->
  ToBoolean (subscription st) = true ->
  exists card s,
    OptGet (subscription st) "status" = VStr s
    /\ subscriptionSection l = CurrentSubscription card
    /\ (s = "active" -> map onClick (actions card) = [HandleCancel])
    /\ (s = "canceled" -> map onClick (actions card) = [HandleReactivate])
    /\ (s <> "active" -> s <> "canceled" -> actions card = []).
Proof.
  intros Hr Ht. apply render_layout in Hr.
  apply renderLayout_Normal in Hr as (sec & u & b & Hs & _ & Hb & Hl).
  destruct (renderSubscription_truthy st sec Ht Hs) as (card & -> & _ & _ & _ & Ha).
  destruct (renderBilling_truthy st b Ht Hb) as (s & Hstatus & _).
  injection Hl as ->.
  exists card, s. split; [exact Hstatus|]. split; [reflexivity|].
  rewrite Ha, Hstatus.
  split; [|split].
  - intros ->. reflexivity.
  - intros ->. reflexivity.
  - intros Hna Hnc. unfold actionButtons. simpl.
    rewrite !bool_decide_eq_false_2 by assumption. reflexivity.
Qed.



Lemma isLoading_orb (a b : bool) : a = false -> b = false -> a || b = false.
Proof. intros -> ->. reflexivity. Qed.


(** C4 (as amended).  With both loading flags clear, no subscription error,
    a falsy value ([null], for one) as the subscription data and a usage
    section that renders, the component returns the layout with the 'No
    Active Subscription' card in place of the subscription card and no
    billing card, so that the only button in it is the sync button: there is
    no Cancel and no Reactivate button.  The usage section does render
    whenever the usage data has no truthy [has_subscription]. *)
Theorem falsy_subscription_renders_call_to_action (st : State) (u : child UsageCard) :
  isLoading (useQuery subscriptionKey (queryClient st)) = false ->
  isLoading (useQuery usageKey (queryClient st)) = false ->
  ToBoolean (error (useQuery subscriptionKey (queryClient st))) = false ->
  ToBoolean (subscription st) = false ->
  renderUsage st = Normal u ->
  let view :=
    LayoutView
      (mkLayout (mkButton HandleSync (isPending (syncMutation st)) "Sync from Stripe")
         (isPending (syncMutation st)) NoActiveSubscription u
         (Skipped (subscription st))) in
  render st = Normal view
  /\ map onClick (viewButtons view) = [HandleSync]
  /\ (ToBoolean (OptGet (usage st) "has_subscription") = false ->
      u = Skipped (OptGet (usage st) "has_subscription")).
Proof.
  intros Hs Hu He Hf Hru. cbv zeta.
  assert (E : render st = renderLayout st).
  { unfold render. cbv zeta. rewrite (isLoading_orb _ _ Hs Hu), He. reflexivity. }
  rewrite E. unfold renderLayout.
  rewrite (renderSubscription_falsy st Hf), Hru, (renderBilling_falsy st Hf). simpl.
  split; [reflexivity|]. split; [reflexivity|].
  intros Hno. rewrite (renderUsage_no_subscription st Hno) in Hru. congruence.
Qed.

End RenderProperties.

(* ===================================================================== *)
(** ** Properties: mutations *)
(* ===================================================================== *)

Section MutationProperties.
Import JS ReactQuery SubscriptionManager.
Context `{Host}.

Lemma lookup_invalidateQueries (key k : list string) (cache : gmap (list string) Query) :
  invalidateQueries key cache !! k
  = (fun q => if matchesKey key k then invalidate q else q) <$> cache !! k.
Proof.
  unfold invalidateQueries. rewrite map_lookup_imap.
  destruct (cache !! k); reflexivity.
Qed.

Lemma data_invalidate (q : Query) : data (invalidate q) = data q.
Proof. unfold invalidate. destruct (data q) eqn:E; simpl; congruence. Qed.

Lemma invalidate_flags (q : Query) :
  isInvalidated (invalidate q) = true /\ isFetching (invalidate q) = true.
Proof. unfold invalidate. destruct (data q); split; reflexivity. Qed.

Lemma queryClient_execAll_onSuccess (m : Mutation) (st : State) :
  queryClient (execAll (onSuccess m) st)
  = invalidateQueries ["subscription-usage"]
      (invalidateQueries ["subscription"] (queryClient st)).
Proof. destruct m; reflexivity. Qed.

Lemma queryClient_setMutationStatus (m : Mutation) (s : MutationStatus) (st : State) :
  queryClient (setMutationStatus m s st) = queryClient st.
Proof. destruct m; reflexivity. Qed.

Lemma mutationStatus_set (m : Mutation) (s : MutationStatus) (st : State) :
  mutationStatus m (setMutationStatus m s st) = s.
Proof. destruct m; reflexivity. Qed.

(** C5.  The [onSuccess] callback of each of the three mutations invalidates
    the keys ['subscription'] and ['subscription-usage'] and no other.  When
    a pending mutation succeeds, every cached query keeps its data (the
    mutation's response is written nowhere), the two queries are marked
    invalidated and fetched again, and a query under neither key is left as
    it was. *)
Theorem success_invalidates_both_keys (m : Mutation) (response : value) (st : State) :
  isPending (mutationStatus m st) = true ->
  invalidatedKeys (onSuccess m) = [["subscription"]; ["subscription-usage"]]
  /\ forall (k : list string) (q : Query),
       queryClient st !! k = Some q ->
       exists q',
         queryClient (mutationSettled m (Resolved response) st) !! k = Some q'
         /\ data q' = data q
         /\ (k = ["subscription"] \/ k = ["subscription-usage"] ->
             isInvalidated q' = true /\ isFetching q' = true)
         /\ (matchesKey ["subscription"] k = false ->
             matchesKey ["subscription-usage"] k = false -> q' = q).
Proof.
  intros Hp. split; [destruct m; reflexivity|].
  intros k q Hk. unfold mutationSettled. rewrite Hp.
  rewrite queryClient_setMutationStatus, queryClient_execAll_onSuccess.
  rewrite !lookup_invalidateQueries, Hk. simpl.
  eexists. split; [reflexivity|].
  split; [|split].
  - destruct (matchesKey ["subscription-usage"] k), (matchesKey ["subscription"] k);
      rewrite ?data_invalidate; reflexivity.
  - intros [-> | ->]; vm_compute matchesKey; apply invalidate_flags.
  - intros -> ->. reflexivity.
Qed.

(** A rejected mutation runs no callback: the cache, the requests sent and
    [isCancelling] are as before, and the mutation is no longer pending. *)
Lemma rejected_mutation_changes_status_only (m : Mutation) (e : value) (st : State) :
  let st' := mutationSettled m (Rejected e) st in
  queryClient st' = queryClient st
  /\ network st' = network st
  /\ isCancelling st' = isCancelling st
  /\ (isPending (mutationStatus m st) = true -> mutationStatus m st' = MError).
Proof.
  cbv zeta. unfold mutationSettled.
  destruct (isPending (mutationStatus m st)) eqn:Hp.
  - destruct m; repeat split; reflexivity.
  - repeat split; try reflexivity. discriminate.
Qed.

Lemma handleCancel_truthy (st : State) :
  ToBoolean (OptGet (subscription st) "stripe_subscription_id") = true ->
  handleCancel st
  = mutate Cancel (OptGet (subscription st) "stripe_subscription_id") (setIsCancelling true st).
Proof. intros Ht. unfold handleCancel. rewrite Ht. reflexivity. Qed.

(** C8.  Cancelling the subscription [sub_123] sends one request: a POST to
    [/api/subscriptions/cancel] with the header [Content-Type:
    application/json] and the body [{"subscription_id":"sub_123"}], and
    makes the mutation pending.  When that mutation succeeds it is pending no
    more, [isCancelling] is false again, the Cancel button is enabled and no
    further request has been sent. *)
Theorem cancel_posts_subscription_id (st : State) (response : value) :
  OptGet (subscription st) "stripe_subscription_id" = VStr "sub_123" ->
  let request :=
    mkRequest "/api/subscriptions/cancel" "POST"
      [("Content-Type", "application/json")] (Some cancelBody_sub_123) in
  let st1 := handleCancel st in
  let st2 := mutationSettled Cancel (Resolved response) st1 in
  mutationFn Cancel (VStr "sub_123") = request
  /\ network st1 = (network st ++ [request])%list
  /\ isPending (cancelMutation st1) = true
  /\ isPending (cancelMutation st2) = false
  /\ isCancelling st2 = false
  /\ disabled (cancelButton st2) = false
  /\ network st2 = network st1.
Proof.
  intros Hid. cbv zeta.
  rewrite handleCancel_truthy by (rewrite Hid; reflexivity). rewrite Hid.
  repeat split; reflexivity.
Qed.

(** C3, at the failing input.  The subscription [sub_123] is active; Cancel
    is clicked and the request is rejected.  The mutation is not sent again,
    it is no longer pending and the cache is as it was, but [isCancelling],
    which only [onSuccess] resets, is still true: the Cancel button is
    rendered disabled. *)
Theorem rejected_cancel_leaves_button_disabled (e : value) :
  let st0 := loaded activeSubscription usage8of10 in
  let st1 := handleCancel st0 in
  let st2 := mutationSettled Cancel (Rejected e) st1 in
  network st2 = network st1
  /\ queryClient st2 = queryClient st0
  /\ isPending (cancelMutation st2) = false
  /\ isCancelling st2 = true
  /\ exists l card,
       render st2 = Normal (LayoutView l)
       /\ subscriptionSection l = CurrentSubscription card
       /\ actions card = [mkButton HandleCancel true "Cancel Subscription"].
Proof.
  cbv zeta. repeat split; try reflexivity.
  eexists. eexists. split; [vm_compute; reflexivity|]. split; reflexivity.
Qed.

End MutationProperties.

(* ===================================================================== *)
(** ** Properties: CheckoutSuccess *)
(* ===================================================================== *)

Section CheckoutProperties.
Import JS ReactQuery CheckoutSuccess.
Context `{Host}.

Lemma deliver_disabled (o : Outcome) (st : State) :
  enabled st = false -> deliver o st = st.
Proof. intros Hd. unfold deliver. rewrite Hd. reflexivity. Qed.

Lemma run_disabled (os : list Outcome) (st : State) :
  enabled st = false -> run os st = st.
Proof.
  intros Hd. induction os as [|o os IH]; [reflexivity|].
  unfold run in *. simpl. rewrite (deliver_disabled o st Hd). exact IH.
Qed.

(** The loading flag only ever goes from true to false, and it does so on a
    truthy session or error. *)
Lemma effect_isLoading (st : State) :
  isLoading (effect st)
  = isLoading st && negb (ToBoolean (session st) || ToBoolean (error st)).
Proof.
  unfold effect. destruct (ToBoolean (session st) || ToBoolean (error st)); simpl.
  - rewrite andb_false_r. reflexivity.
  - rewrite andb_true_r. reflexivity.
Qed.

(** A query that resolves with falsy data other than [undefined], and so
    without error, leaves the loading flag of a freshly mounted screen set. *)
Lemma falsy_resolution_keeps_loading (sid : option string) (d : value) :
  d <> VUndefined ->
  ToBoolean d = false ->
  isLoading (deliver (Resolved d) (mount sid)) = true.
Proof.
  intros Hu Hd. unfold deliver, mount. simpl.
  destruct (enabled _); [|reflexivity].
  destruct d; simpl in Hd; try congruence; rewrite effect_isLoading; simpl;
    rewrite ?Hd; reflexivity.
Qed.

(** Once the loading flag is clear the screen shows the failure view exactly
    when there is an error or no session, and the success view, with the
    payment details, only for a truthy session and no error. *)
Lemma render_not_loading (st : State) :
  isLoading st = false ->
  (render st = Normal FailureView
   <-> ToBoolean (error st) = true \/ ToBoolean (session st) = false)
  /\ (forall details, render st = Normal (SuccessView details) ->
      ToBoolean (session st) = true /\ ToBoolean (error st) = false
      /\ exists d, details = Some d /\ renderDetails (session st) = Normal d).
Proof.
  intros Hl. unfold render. rewrite Hl.
  destruct (ToBoolean (error st)), (ToBoolean (session st)) eqn:Hs; simpl; split;
    try (split; [auto | reflexivity]); try discriminate.
  - split; [|intros [|]; discriminate].
    destruct (renderDetails (session st)); discriminate.
  - intros details Hd. destruct (renderDetails (session st)) as [d|]; [|discriminate].
    injection Hd as <-. eauto.
Qed.

Lemma render_success_not_loading (st : State) (details : option PaymentDetails) :
  render st = Normal (SuccessView details) -> isLoading st = false.
Proof. unfold render. destruct (isLoading st); [discriminate | reflexivity]. Qed.

(** C2, at the failing input.  Mounted without a [session_id] parameter (or
    with an empty one) the query is disabled; whatever happens afterwards,
    neither a session nor an error ever arrives, the effect never clears
    [isLoading], and the screen renders the loading view. *)
Theorem missing_session_id_stays_loading (os : list Outcome) :
  render (run os (mount None)) = Normal LoadingView
  /\ render (run os (mount (Some ""))) = Normal LoadingView.
Proof.
  split; rewrite run_disabled by reflexivity; reflexivity.
Qed.

(** C10, at the failing input.  Mounted with [session_id=cs_test_1], the
    fetch settles with [null] and no error: the effect does not clear
    [isLoading], so the screen renders the loading view, not the failure
    view. *)
Theorem null_session_without_error_stays_loading :
  let st := deliver (Resolved VNull) (mount (Some "cs_test_1")) in
  session st = VNull
  /\ error st = VNull
  /\ isLoading st = true
  /\ render st = Normal LoadingView.
Proof. cbv zeta. repeat split; reflexivity. Qed.

End CheckoutProperties.

(* ===================================================================== *)
(** ** Closed instances *)
(* ===================================================================== *)

Section ClosedInstances.
Import JS ReactQuery SubscriptionManager.

(** C4, the object.  With [{has_subscription: false}] as the data of both
    queries the subscription data is an object, hence truthy: the component
    takes the subscription branch, and under no host does it render the
    'No Active Subscription' card.  (It throws, on the [charAt] of the
    missing status.) *)
Lemma has_subscription_false_object_is_not_absent :
  ~ (exists (H : Host) (l : Layout),
       render (loaded (VObj [("has_subscription", VBool false)])
                      (VObj [("has_subscription", VBool false)]))
       = Normal (LayoutView l)
       /\ subscriptionSection l = NoActiveSubscription).
Proof.
  intros (H & l & Hr & _).
  assert (E : render (loaded (VObj [("has_subscription", VBool false)])
                             (VObj [("has_subscription", VBool false)]))
              = Throw TypeError) by (vm_compute; reflexivity).
  rewrite E in Hr. discriminate Hr.
Qed.

Lemma falsy_subscription_renders_call_to_action_witness :
  render (H := ExampleHost.host)
    (loaded VNull (VObj [("has_subscription", VBool false)]))
  = Normal (LayoutView
              (mkLayout (mkButton HandleSync false "Sync from Stripe") false
                 NoActiveSubscription (Skipped (VBool false)) (Skipped VNull))).
Proof.
  exact (proj1 (falsy_subscription_renders_call_to_action (H := ExampleHost.host)
                  (loaded VNull (VObj [("has_subscription", VBool false)]))
                  (Skipped (VBool false)) eq_refl eq_refl eq_refl eq_refl eq_refl)).
Defined.


Lemma success_invalidates_both_keys_witness :
  let st := handleCancel (H := ExampleHost.host) (loaded activeSubscription usage8of10) in
  isPending (mutationStatus Cancel st) = true
  /\ invalidatedKeys (onSuccess Cancel) = [["subscription"]; ["subscription-usage"]]
  /\ exists q',
       queryClient (mutationSettled Cancel (Resolved VNull) st) !! ["subscription"] = Some q'
       /\ data q' = activeSubscription
       /\ isInvalidated q' = true.
Proof.
  cbv zeta.
  pose proof (success_invalidates_both_keys Cancel VNull
                (handleCancel (H := ExampleHost.host) (loaded activeSubscription usage8of10))
                eq_refl) as (Hkeys & Hcache).
  split; [reflexivity|]. split; [exact Hkeys|].
  destruct (Hcache ["subscription"] (mkQuery activeSubscription VNull QSuccess false 0 false)
              eq_refl) as (q' & Hq & Hd & Hinv & _).
  exists q'. split; [exact Hq|]. split; [exact Hd|].
  exact (proj1 (Hinv (or_introl eq_refl))).
Defined.

Lemma actions_determined_by_status_witness :
  ToBoolean (subscription (loaded activeSubscription usage8of10)) = true
  /\ exists l card,
       render (H := ExampleHost.host) (loaded activeSubscription usage8of10)
       = Normal (LayoutView l)
       /\ subscriptionSection l = CurrentSubscription card
       /\ map onClick (actions card) = [HandleCancel].
Proof.
  split; [reflexivity|].
  assert (Hr : exists l, render (H := ExampleHost.host) (loaded activeSubscription usage8of10)
                         = Normal (LayoutView l))
    by (eexists; vm_compute; reflexivity).
  destruct Hr as (l & Hr). exists l.
  destruct (actions_determined_by_status (H := ExampleHost.host) _ l Hr eq_refl)
    as (card & s & Hs & Hsec & Hactive & _).
  exists card. split; [exact Hr|]. split; [exact Hsec|].
  apply Hactive. injection Hs as <-. reflexivity.
Defined.

Lemma cancel_posts_subscription_id_witness :
  let st := loaded activeSubscription usage8of10 in
  OptGet (subscription st) "stripe_subscription_id" = VStr "sub_123"
  /\ network (handleCancel (H := ExampleHost.host) st)
     = [mkRequest "/api/subscriptions/cancel" "POST"
          [("Content-Type", "application/json")] (Some cancelBody_sub_123)]
  /\ isPending (cancelMutation
                  (mutationSettled Cancel (Resolved VNull)
                     (handleCancel (H := ExampleHost.host) st))) = false.
Proof.
  cbv zeta.
  pose proof (cancel_posts_subscription_id (H := ExampleHost.host)
                (loaded activeSubscription usage8of10) VNull eq_refl)
    as (_ & Hnet & _ & Hpending & _).
  split; [reflexivity|]. split; [exact Hnet | exact Hpending].
Defined.

(** The usage query has failed three times and is in the error state, the
    subscription query has answered [null]: the layout is rendered, with no
    usage section. *)
Example usage_error_alone_renders_layout :
  let st :=
    querySettled usageKey (Rejected (VStr "down"))
      (querySettled usageKey (Rejected (VStr "down"))
         (querySettled usageKey (Rejected (VStr "down"))
            (querySettled subscriptionKey (Resolved VNull) initial))) in
  ToBoolean (error (useQuery usageKey (queryClient st))) = true
  /\ render (H := ExampleHost.host) st
     = Normal (LayoutView
                 (mkLayout (mkButton HandleSync false "Sync from Stripe") false
                    NoActiveSubscription (Skipped VUndefined) (Skipped VNull))).
Proof. cbv zeta. split; vm_compute; reflexivity. Qed.

(** After two failures the usage query is still retrying, and the manager
    still shows the loading view. *)
Example usage_retrying_is_loading :
  render (H := ExampleHost.host)
    (querySettled usageKey (Rejected (VStr "down"))
       (querySettled usageKey (Rejected (VStr "down"))
          (querySettled subscriptionKey (Resolved VNull) initial)))
  = Normal LoadingView.
Proof. vm_compute. reflexivity. Qed.

End ClosedInstances.

(* ===================================================================== *)
(** ** Further properties: what the manager renders and when it throws *)
(* ===================================================================== *)

Section RenderEdges.
Import JS ReactQuery SubscriptionManager.
Context `{Host}.

Lemma ToNumber_coercible (v : value) :
  if coercible v then exists n, ToNumber v = Normal n else ToNumber v = Throw TypeError.
Proof.
  destruct v; simpl; eauto. destruct (hasOwn "toString" props); simpl; eauto.
Qed.

(** The width is computed unless a number is asked of an object that does
    not convert. *)
Lemma barWidthPercent_converts (used limit : value) :
  if strictEqualsString limit "unlimited" || coercible limit && coercible used
  then exists w, barWidthPercent used limit = Normal w
  else barWidthPercent used limit = Throw TypeError.
Proof.
  unfold barWidthPercent. destruct (strictEqualsString limit "unlimited"); simpl; [eauto|].
  pose proof (ToNumber_coercible limit) as Hl. pose proof (ToNumber_coercible used) as Hu.
  destruct (coercible limit); simpl.
  - destruct Hl as (l & ->). simpl. destruct (coercible used).
    + destruct Hu as (u & ->). simpl. eauto.
    + rewrite Hu. reflexivity.
  - rewrite Hl. reflexivity.
Qed.

Lemma remainingTextOf_converts (remaining : value) :
  if strictEqualsString remaining "unlimited" || coercible remaining
  then exists t, remainingTextOf remaining = Normal t
  else remainingTextOf remaining = Throw TypeError.
Proof.
  unfold remainingTextOf, primitiveArg.
  destruct (strictEqualsString remaining "unlimited"); simpl; [eauto|].
  destruct (coercible remaining); simpl; eauto.
Qed.

(** X1.  The usage card is rendered exactly when the usage data has a truthy
    [has_subscription] and a truthy [usage] whose [email_connections] is
    neither [undefined] nor [null], and the bar width and the remaining text
    can be computed; the card then shows [used], [limit], that width and
    that text.  Rendering the usage section throws exactly when the first
    two hold and either [email_connections] is [undefined] or [null], or
    [Number(limit)], [used / ...] or [`${remaining}`] is asked of an object
    that does not convert to a primitive. *)
Theorem usage_card_shown_or_throws (st : State) :
  let has := OptGet (usage st) "has_subscription" in
  let uu := OptGet (usage st) "usage" in
  let ec := OptGet uu "email_connections" in
  let used := OptGet ec "used" in
  let limit := OptGet ec "limit" in
  let remaining := OptGet ec "remaining" in
  let converts :=
    (strictEqualsString limit "unlimited" || coercible limit && coercible used)
    && (strictEqualsString remaining "unlimited" || coercible remaining) in
  (forall card,
     renderUsage st = Normal (Element card) <->
     ToBoolean has = true /\ ToBoolean uu = true /\ ec <> VUndefined /\ ec <> VNull
     /\ usedText card = used /\ limitText card = limit
     /\ barWidthPercent used limit = Normal (barWidth card)
     /\ remainingTextOf remaining = Normal (remainingText card))
  /\ (renderUsage st = Throw TypeError <->
      ToBoolean has = true /\ ToBoolean uu = true
      /\ (ec = VUndefined \/ ec = VNull \/ converts = false)).
Proof.
  cbv zeta. unfold renderUsage.
  destruct (ToBoolean (OptGet (usage st) "has_subscription")) eqn:Hhas.
  2:{ split; [intros card|]; split; try discriminate; intros (? & _); discriminate. }
  assert (Hu : ToBoolean (usage st) = true).
  { destruct (usage st); simpl in *; try discriminate; reflexivity. }
  rewrite (Get_truthy _ _ Hu). simpl.
  destruct (ToBoolean (OptGet (usage st) "usage")) eqn:Huu.
  2:{ split; [intros card|]; split; try discriminate; intros (_ & ? & _); discriminate. }
  rewrite (Get_truthy _ _ Huu). simpl.
  set (ec := OptGet (OptGet (usage st) "usage") "email_connections").
  assert (Hec : (ec = VUndefined \/ ec = VNull) /\ Get ec "used" = Throw TypeError
                \/ (ec <> VUndefined /\ ec <> VNull
                    /\ forall k, Get ec k = Normal (OptGet ec k))).
  { destruct ec; simpl; auto; right; repeat split; discriminate. }
  destruct Hec as [(Hn & Hg) | (Hn1 & Hn2 & Hg)].
  { rewrite Hg. simpl. split; [intros card|]; split.
    - discriminate.
    - intros (_ & _ & Hc1 & Hc2 & _). destruct Hn; contradiction.
    - intros _. destruct Hn; auto.
    - reflexivity. }
  rewrite !Hg. simpl.
  pose proof (barWidthPercent_converts (OptGet ec "used") (OptGet ec "limit")) as Hw.
  pose proof (remainingTextOf_converts (OptGet ec "remaining")) as Hr.
  destruct (strictEqualsString (OptGet ec "limit") "unlimited"
            || coercible (OptGet ec "limit") && coercible (OptGet ec "used")).
  2:{ rewrite Hw. simpl. split; [intros card|]; split.
      - discriminate.
      - intros (_ & _ & _ & _ & _ & _ & Hc & _). discriminate Hc.
      - intros _. auto.
      - reflexivity. }
  destruct Hw as (w & ->). simpl.
  destruct (strictEqualsString (OptGet ec "remaining") "unlimited"
            || coercible (OptGet ec "remaining")).
  2:{ rewrite Hr. simpl. split; [intros card|]; split.
      - discriminate.
      - intros (_ & _ & _ & _ & _ & _ & _ & Hc). discriminate Hc.
      - intros _. auto.
      - reflexivity. }
  destruct Hr as (t & ->). simpl.
  split; [intros card|]; split.
  - intros [= <-]. simpl. repeat split; assumption.
  - intros (_ & _ & _ & _ & Hcu & Hcl & [= Hcw] & [= Hct]).
    destruct card; simpl in *; subst. reflexivity.
  - discriminate.
  - intros (_ & _ & [Hc | [Hc | Hc]]); [contradiction | contradiction | discriminate].
Qed.

(** X2.  With both loading flags clear and no subscription error, the
    component throws a [TypeError] exactly when the subscription data is
    truthy and has no string [status] or a period date that does not convert
    to a primitive, or the usage section throws; in every other such state
    it returns the layout. *)
Theorem render_throws_iff_malformed_data (st : State) :
  isLoading (useQuery subscriptionKey (queryClient st)) = false ->
  isLoading (useQuery usageKey (queryClient st)) = false ->
  ToBoolean (error (useQuery subscriptionKey (queryClient st))) = false ->
  let malformed :=
    (ToBoolean (subscription st) = true
     /\ ((forall s, OptGet (subscription st) "status" <> VStr s)
         \/ coercible (OptGet (subscription st) "current_period_start") = false
         \/ coercible (OptGet (subscription st) "current_period_end") = false))
    \/ renderUsage st = Throw TypeError in
  (render st = Throw TypeError <-> malformed)
  /\ (~ malformed -> exists l, render st = Normal (LayoutView l)).
Proof.
  intros Hs Hu He. cbv zeta.
  assert (E : render st = renderLayout st).
  { unfold render. cbv zeta. rewrite (isLoading_orb _ _ Hs Hu), He. reflexivity. }
  rewrite E. unfold renderLayout.
  destruct (ToBoolean (subscription st)) eqn:Ht.
  2:{ rewrite (renderSubscription_falsy st Ht), (renderBilling_falsy st Ht). simpl.
      destruct (renderUsage st) as [u|[]] eqn:Hru; simpl.
      - split; [split|]; [discriminate | intros [(Hc & _) | Hc]; discriminate | eauto].
      - split; [split; auto|]. intros Hn. exfalso. apply Hn. auto. }
  unfold renderSubscription, renderBilling. rewrite Ht.
  repeat rewrite (Get_truthy _ _ Ht). simpl. unfold primitiveArg.
  destruct (coercible (OptGet (subscription st) "current_period_start")) eqn:Hps; simpl.
  2:{ split; [split; auto|]. intros Hn. exfalso. apply Hn. auto. }
  destruct (coercible (OptGet (subscription st) "current_period_end")) eqn:Hpe; simpl.
  2:{ split; [split; auto|]. intros Hn. exfalso. apply Hn. auto. }
  destruct (renderUsage st) as [u|[]] eqn:Hru; simpl.
  2:{ split; [split; auto|]. intros Hn. exfalso. apply Hn. auto. }
  destruct (OptGet (subscription st) "status") eqn:Hstatus; simpl.
  all: split; [split|].
  all: try (intros _; left; split; [reflexivity | left; intros s0; discriminate]).
  all: try reflexivity.
  all: try (intros Hn; exfalso; apply Hn; left; split;
            [reflexivity | left; intros s0; discriminate]).
  - discriminate.
  - intros [(_ & [Hn | [Hn | Hn]]) | Hc]; try discriminate. exfalso. exact (Hn s eq_refl).
  - intros _. eauto.
Qed.

End RenderEdges.

(* ===================================================================== *)
(** ** Further properties: cards, bar width, requests *)
(* ===================================================================== *)

Section CardsAndRequests.
Import JS ReactQuery SubscriptionManager ManagerEvents.
Context `{Host}.

(** X3.  In every rendered layout the subscription card and the billing card
    come together: with truthy subscription data both are there, the billing
    card repeating the badge's colour class and the card's period end,
    showing the status string with its first character in upper case, and
    showing the latest invoice exactly when [latest_invoice_id] is truthy;
    with falsy data neither is there. *)
Theorem subscription_and_billing_cards_together (st : State) (l : Layout) :
  render st = Normal (LayoutView l) ->
  (ToBoolean (subscription st) = true
   /\ exists card bill s,
        subscriptionSection l = CurrentSubscription card
        /\ billingSection l = Element bill
        /\ badgeText card = VStr s
        /\ billingStatus bill = (toUpperCase (charAt s 0) ++ slice s 1)%string
        /\ billingStatusClass bill = badgeClass card
        /\ nextBillingDate bill = periodEnd card
        /\ (forall inv, latestInvoice bill = Element inv <->
              inv = OptGet (subscription st) "latest_invoice_id"
              /\ ToBoolean inv = true))
  \/ (ToBoolean (subscription st) = false
      /\ subscriptionSection l = NoActiveSubscription
      /\ billingSection l = Skipped (subscription st)).
Proof.
  intros Hr. apply render_layout in Hr.
  apply renderLayout_Normal in Hr as (sec & u & b & Hs & _ & Hb & Hl).
  injection Hl as ->. simpl.
  destruct (ToBoolean (subscription st)) eqn:Ht.
  - left. split; [reflexivity|].
    destruct (renderSubscription_truthy st sec Ht Hs) as (card & -> & Htext & Hcls & Hpe & _).
    destruct (renderBilling_truthy st b Ht Hb) as (s & Hstatus & ->).
    eexists. eexists. exists s. simpl.
    split; [reflexivity|]. split; [reflexivity|].
    split; [rewrite Htext; exact Hstatus|]. split; [reflexivity|].
    split; [rewrite Hcls, Hstatus; reflexivity|]. split; [rewrite Hpe; reflexivity|].
    intros inv.
    destruct (ToBoolean (OptGet (subscription st) "latest_invoice_id")) eqn:Hi; split.
    + intros [= <-]. auto.
    + intros (-> & _). reflexivity.
    + discriminate.
    + intros (-> & Hc). congruence.
  - right. rewrite (renderSubscription_falsy st Ht) in Hs.
    rewrite (renderBilling_falsy st Ht) in Hb.
    injection Hs as <-. injection Hb as <-. auto.
Qed.



Lemma quoteChars_plain (s : string) :
  plainString s = true -> quoteChars s = s.
Proof.
  induction s as [|c r IH]; [reflexivity|]. simpl.
  intros Hp. apply andb_true_iff in Hp as [Hc Hr]. rewrite (IH Hr).
  unfold plainChar in Hc. cbv zeta in Hc.
  apply andb_true_iff in Hc as [Hc H92]. apply andb_true_iff in Hc as [H32 H34].
  apply negb_true_iff in H34, H92. apply Nat.leb_le in H32.
  unfold quoteChar. cbv zeta. rewrite H34, H92.
  assert (Hlt : (nat_of_ascii c <? 32)%nat = false) by (apply Nat.ltb_ge; exact H32).
  rewrite Hlt.
  repeat match goal with
         | |- context [(nat_of_ascii c =? ?k)%nat] =>
             replace (nat_of_ascii c =? k)%nat with false
               by (symmetry; apply Nat.eqb_neq; lia)
         end.
  reflexivity.
Qed.

(** X5.  A subscription id made of plain characters is sent as it is: for a
    non-empty such id, Cancel and Reactivate each send one POST to their own
    endpoint with the JSON content type and the body
    [{"subscription_id":"<id>"}].  Reactivate makes only its own mutation
    pending and leaves [isCancelling] alone; Cancel sets [isCancelling]. *)
Theorem cancel_and_reactivate_send_id_verbatim (st : State) (id : string) :
  id <> "" ->
  plainString id = true ->
  OptGet (subscription st) "stripe_subscription_id" = VStr id ->
  let body := Some ("{" ++ quoted "subscription_id" ++ ":" ++ quoted id ++ "}")%string in
  let json := [("Content-Type", "application/json")] in
  network (handleReactivate st)
  = (network st ++ [mkRequest "/api/subscriptions/reactivate" "POST" json body])%list
  /\ network (handleCancel st)
     = (network st ++ [mkRequest "/api/subscriptions/cancel" "POST" json body])%list
  /\ isCancelling (handleReactivate st) = isCancelling st
  /\ cancelMutation (handleReactivate st) = cancelMutation st
  /\ reactivateMutation (handleReactivate st) = MPending
  /\ isCancelling (handleCancel st) = true
  /\ cancelMutation (handleCancel st) = MPending
  /\ reactivateMutation (handleCancel st) = reactivateMutation st.
Proof.
  intros Hne Hp Hid. cbv zeta.
  assert (Ht : ToBoolean (VStr id) = true).
  { simpl. rewrite bool_decide_eq_false_2 by exact Hne. reflexivity. }
  unfold handleReactivate, handleCancel. rewrite Hid, Ht.
  unfold mutate, mutationFn, send. simpl.
  unfold QuoteJSONString, quoted. rewrite (quoteChars_plain id Hp).
  repeat split; reflexivity.
Qed.

(** X6.  Sync needs no subscription: whatever the state, it sends one POST
    to [/api/subscriptions/sync] with no header and no body and touches
    nothing but its own mutation; in the layout rendered next the sync
    button is disabled and its icon spins. *)
Theorem sync_posts_without_body (st : State) :
  network (handleSync st)
  = (network st ++ [mkRequest "/api/subscriptions/sync" "POST" [] None])%list
  /\ queryClient (handleSync st) = queryClient st
  /\ isCancelling (handleSync st) = isCancelling st
  /\ cancelMutation (handleSync st) = cancelMutation st
  /\ reactivateMutation (handleSync st) = reactivateMutation st
  /\ forall l, render (handleSync st) = Normal (LayoutView l) ->
       syncButton l = mkButton HandleSync true "Sync from Stripe"
       /\ syncSpinning l = true.
Proof.
  do 5 (split; [reflexivity|]).
  intros l Hr. apply render_layout in Hr.
  apply renderLayout_Normal in Hr as (? & ? & ? & _ & _ & _ & [= ->]).
  split; reflexivity.
Qed.

(** X7.  When a pending sync or reactivate is rejected, the mutation is
    pending no more, so its button is enabled again with its idle label
    (unlike Cancel's); nothing is sent again and the cache is as before. *)
Theorem rejected_sync_or_reactivate_reenables (m : Mutation) (e : value) (st : State) :
  m <> Cancel ->
  isPending (mutationStatus m st) = true ->
  let st' := mutationSettled m (Rejected e) st in
  isPending (mutationStatus m st') = false
  /\ network st' = network st
  /\ queryClient st' = queryClient st
  /\ (m = Reactivate ->
      reactivateButton st' = mkButton HandleReactivate false "Reactivate Subscription")
  /\ (m = Sync -> forall l, render st' = Normal (LayoutView l) ->
      syncButton l = mkButton HandleSync false "Sync from Stripe"
      /\ syncSpinning l = false).
Proof.
  intros Hm Hp. cbv zeta. unfold mutationSettled. rewrite Hp.
  destruct m; [| congruence |]; simpl; (do 3 (split; [reflexivity|])).
  - split; [discriminate|]. intros _ l Hr. apply render_layout in Hr.
    apply renderLayout_Normal in Hr as (? & ? & ? & _ & _ & _ & [= ->]).
    split; reflexivity.
  - split; [reflexivity | discriminate].
Qed.

End CardsAndRequests.

(* ===================================================================== *)
(** ** Further properties: traces of the manager *)
(* ===================================================================== *)

Section ManagerTraces.
Import JS ReactQuery SubscriptionManager ManagerEvents.
Context `{Host}.

Lemma renderSubscription_actions (st : State) (sec : SubscriptionSection) :
  renderSubscription st = Normal sec ->
  sec = NoActiveSubscription
  \/ exists card, sec = CurrentSubscription card
                  /\ actions card = actionButtons st (OptGet (subscription st) "status").
Proof.
  intros Hs. destruct (ToBoolean (subscription st)) eqn:Ht.
  - destruct (renderSubscription_truthy st sec Ht Hs) as (card & -> & _ & _ & _ & Ha).
    eauto.
  - rewrite (renderSubscription_falsy st Ht) in Hs. injection Hs as <-. auto.
Qed.

(** The buttons of a render are the retry button, the sync button, the
    Cancel button and the Reactivate button of the state, and no other. *)
Lemma viewButtons_render (st : State) (v : View) (b : Button) :
  render st = Normal v ->
  In b (viewButtons v) ->
  b = retryButton
  \/ b = mkButton HandleSync (isPending (syncMutation st)) "Sync from Stripe"
  \/ b = cancelButton st
  \/ b = reactivateButton st.
Proof.
  intros Hr Hb.
  destruct (render_cases st) as [(_ & E) | [(_ & _ & E) | (_ & _ & E)]];
    rewrite E in Hr.
  - injection Hr as <-. destruct Hb.
  - injection Hr as <-. destruct Hb as [<- | []]. auto.
  - apply renderLayout_Normal in Hr as (sec & u & bill & Hs & _ & _ & ->).
    simpl in Hb. destruct Hb as [<- | Hb]; [auto|].
    apply renderSubscription_actions in Hs as [-> | (card & -> & Ha)]; [destruct Hb|].
    rewrite Ha in Hb. unfold actionButtons in Hb.
    apply in_app_or in Hb as [Hb | Hb].
    + destruct (strictEqualsString _ "active"); [|destruct Hb].
      destruct Hb as [<- | []]. auto.
    + destruct (strictEqualsString _ "canceled"); [|destruct Hb].
      destruct Hb as [<- | []]. auto.
Qed.

Lemma step_keeps_isCancelling (e : Event) (st : State) :
  clearsCancelling e = false ->
  isCancelling st = true ->
  isCancelling (step e st) = true.
Proof.
  intros He Hc. destruct e as [h | m o | k o]; simpl.
  - destruct h; simpl; try discriminate.
    + exact Hc.
    + unfold handleCancel. destruct (ToBoolean _); [reflexivity | exact Hc].
    + unfold handleReactivate. destruct (ToBoolean _); exact Hc.
  - unfold mutationSettled. destruct (isPending (mutationStatus m st)); [|exact Hc].
    destruct m, o; simpl; try exact Hc; discriminate.
  - exact Hc.
Qed.

(** X9.  Nothing but a successful cancel or a reload of the page clears
    [isCancelling]: after any handler calls, rejected cancels, other
    mutation results and query results it is still set, and every render
    shows the Cancel button, when it shows it, disabled.  So after a rejected
    cancel, with none in flight, the button offers no way to start another. *)
Theorem isCancelling_cleared_only_by_success_or_reload (es : list Event) (st : State) :
  isCancelling st = true ->
  Forall (fun e => clearsCancelling e = false) es ->
  isCancelling (run es st) = true
  /\ forall v b, render (run es st) = Normal v ->
                 In b (viewButtons v) ->
                 onClick b = HandleCancel ->
                 disabled b = true.
Proof.
  intros Hc Hes.
  assert (G : isCancelling (run es st) = true).
  { revert st Hc. induction Hes as [|e es He Hes IH]; intros st Hc; [exact Hc|].
    unfold run in *. simpl. apply IH. apply step_keeps_isCancelling; assumption. }
  split; [exact G|].
  intros v b Hr Hb Hh.
  destruct (viewButtons_render _ v b Hr Hb) as [-> | [-> | [-> | ->]]];
    simpl in Hh; try discriminate.
  simpl. rewrite G. reflexivity.
Qed.

Lemma sentByHandler_step (e : Event) (st : State) :
  Forall sentByHandler (network st) -> Forall sentByHandler (network (step e st)).
Proof.
  intros Hn. destruct e as [h | m o | k o]; simpl.
  - destruct h; simpl.
    + apply Forall_app. split; [exact Hn|]. constructor; [|constructor].
      left. reflexivity.
    + unfold handleCancel.
      destruct (ToBoolean (OptGet (subscription st) "stripe_subscription_id")) eqn:Hid;
        [|exact Hn].
      simpl. apply Forall_app. split; [exact Hn|]. constructor; [|constructor].
      right. exists Cancel. eexists. split; [discriminate|]. split; [exact Hid|reflexivity].
    + unfold handleReactivate.
      destruct (ToBoolean (OptGet (subscription st) "stripe_subscription_id")) eqn:Hid;
        [|exact Hn].
      simpl. apply Forall_app. split; [exact Hn|]. constructor; [|constructor].
      right. exists Reactivate. eexists.
      split; [discriminate|]. split; [exact Hid|reflexivity].
    + constructor.
  - unfold mutationSettled. destruct (isPending (mutationStatus m st)); [|exact Hn].
    destruct o, m; exact Hn.
  - exact Hn.
Qed.

(** X10.  Whatever happens after the mount, the only requests the mutation
    functions ever send are the sync request and cancel or reactivate
    requests made from a truthy subscription id: none is ever sent for an
    absent subscription or an empty id. *)
Theorem only_handler_requests_are_sent (es : list Event) :
  Forall sentByHandler (network (run es initial)).
Proof.
  assert (G : forall st, Forall sentByHandler (network st) ->
                         Forall sentByHandler (network (run es st))).
  { induction es as [|e es IH]; intros st Hn; [exact Hn|].
    unfold run in *. simpl. apply IH. apply sentByHandler_step. exact Hn. }
  apply G. constructor.
Qed.

End ManagerTraces.

(* ===================================================================== *)
(** ** Further properties: fetching again *)
(* ===================================================================== *)

Section Refetch.
Import JS ReactQuery SubscriptionManager.
Context `{Host}.

(** X11.  The subscription query retries twice.  With the usage query
    settled, the manager shows the loading view after the first and after
    the second failed fetch of the subscription, and only the third failure
    brings the error view (for a truthy error); none of this sends a
    mutation request. *)
Theorem error_view_after_third_failure (usg e1 e2 e3 : value) :
  let st0 := querySettled usageKey (Resolved usg) initial in
  let st1 := querySettled subscriptionKey (Rejected e1) st0 in
  let st2 := querySettled subscriptionKey (Rejected e2) st1 in
  let st3 := querySettled subscriptionKey (Rejected e3) st2 in
  render st0 = Normal LoadingView
  /\ render st1 = Normal LoadingView
  /\ render st2 = Normal LoadingView
  /\ (ToBoolean e3 = true -> render st3 = Normal (ErrorView retryButton))
  /\ error (useQuery subscriptionKey (queryClient st3)) = e3
  /\ network st3 = [].
Proof.
  cbv zeta. do 3 (split; [reflexivity|]).
  split; [|split; reflexivity].
  intros He. unfold render. cbv zeta.
  change (isLoading (useQuery subscriptionKey _)) with false.
  change (isLoading (useQuery usageKey _)) with false.
  change (error (useQuery subscriptionKey _)) with e3.
  simpl. rewrite He. reflexivity.
Qed.

Lemma useQuery_lookup (k : list string) (q : Query) (c : gmap (list string) Query) :
  c !! k = Some q -> useQuery k c = q.
Proof. intros Hk. unfold useQuery. rewrite Hk. reflexivity. Qed.

Lemma useQuery_success (m : Mutation) (r : value) (k : list string) (q : Query)
    (st : State) :
  isPending (mutationStatus m st) = true ->
  k = subscriptionKey \/ k = usageKey ->
  queryClient st !! k = Some q ->
  useQuery k (queryClient (mutationSettled m (Resolved r) st)) = invalidate q.
Proof.
  intros Hp Hk Hq. unfold mutationSettled. rewrite Hp.
  rewrite queryClient_setMutationStatus, queryClient_execAll_onSuccess.
  apply useQuery_lookup. rewrite !lookup_invalidateQueries, Hq.
  destruct Hk as [-> | ->]; reflexivity.
Qed.

(** X12.  After a successful mutation a query that holds data is fetched
    again behind the view: it is not loading, and the component goes on
    showing the data it had.  A query that holds none (one that had failed,
    say) goes back to loading, with its error dropped, so the manager shows
    the loading view. *)
Theorem success_refetches_behind_the_view (m : Mutation) (r : value) (k : list string)
    (q : Query) (st : State) :
  isPending (mutationStatus m st) = true ->
  k = subscriptionKey \/ k = usageKey ->
  queryClient st !! k = Some q ->
  let st' := mutationSettled m (Resolved r) st in
  let q' := useQuery k (queryClient st') in
  isFetching q' = true
  /\ data q' = data q
  /\ (data q <> VUndefined -> status q <> QPending ->
      isLoading q' = false /\ error q' = error q)
  /\ (data q = VUndefined ->
      isLoading q' = true /\ error q' = VNull /\ render st' = Normal LoadingView).
Proof.
  intros Hp Hk Hq. cbv zeta.
  assert (Hk' := Hk).
  rewrite (useQuery_success m r k q st Hp Hk Hq).
  split; [apply invalidate_flags|]. split; [apply data_invalidate|]. split.
  - intros Hd Hs. unfold invalidate.
    destruct (data q); [congruence | | | | |];
      (split; [|reflexivity]); unfold isLoading; simpl;
      destruct (status q); congruence.
  - intros Hd. unfold invalidate. rewrite Hd.
    split; [reflexivity|]. split; [reflexivity|].
    unfold render. cbv zeta.
    destruct Hk' as [-> | ->].
    + rewrite (useQuery_success m r subscriptionKey q st Hp (or_introl eq_refl) Hq).
      unfold invalidate. rewrite Hd. reflexivity.
    + rewrite (useQuery_success m r usageKey q st Hp (or_intror eq_refl) Hq).
      unfold invalidate. rewrite Hd. simpl. rewrite orb_true_r. reflexivity.
Qed.

End Refetch.

(* ===================================================================== *)
(** ** Further properties: CheckoutSuccess *)
(* ===================================================================== *)

Section CheckoutTraces.
Import JS ReactQuery CheckoutSuccess CheckoutEvents.
Context `{Host}.

Lemma enabled_effect (st : State) : enabled (effect st) = enabled st.
Proof. unfold effect. destruct (_ || _); reflexivity. Qed.

Lemma enabled_deliver (o : Outcome) (st : State) : enabled (deliver o st) = enabled st.
Proof.
  unfold deliver. destruct (enabled st) eqn:He; [|exact He].
  rewrite enabled_effect. destruct o as [[]|]; exact He.
Qed.

Lemma settled_effect (st : State) : settled (effect st).
Proof.
  unfold settled, effect.
  destruct (ToBoolean (session st)) eqn:Hs, (ToBoolean (error st)) eqn:He; simpl;
    try discriminate.
  intros _. auto.
Qed.

Lemma settled_deliver (o : Outcome) (st : State) : settled st -> settled (deliver o st).
Proof.
  intros Hst. unfold deliver. destruct (enabled st); [apply settled_effect | exact Hst].
Qed.

Lemma isLoading_deliver (o : Outcome) (st : State) :
  settled st ->
  isLoading (deliver o st) = isLoading st && negb (enabled st && carriesValue o).
Proof.
  intros Hst. unfold deliver. destruct (enabled st); simpl.
  2:{ rewrite andb_true_r. reflexivity. }
  rewrite effect_isLoading.
  destruct o as [[] | e]; simpl; rewrite ?orb_false_r, ?orb_true_r, ?andb_false_r;
    try reflexivity.
  destruct (isLoading st) eqn:Hl; simpl; [|reflexivity].
  destruct (Hst Hl) as [-> _]. reflexivity.
Qed.

Lemma isLoading_run (os : list Outcome) (st : State) :
  settled st ->
  isLoading (run os st)
  = isLoading st && negb (enabled st && existsb carriesValue os).
Proof.
  revert st. induction os as [|o os IH]; intros st Hst.
  - simpl. rewrite andb_false_r, andb_true_r. reflexivity.
  - unfold run in *. simpl. rewrite (IH _ (settled_deliver o st Hst)).
    rewrite (isLoading_deliver o st Hst), enabled_deliver.
    destruct (isLoading st), (enabled st), (carriesValue o); reflexivity.
Qed.

(** X13.  The screen leaves the loading view exactly when the session id is
    non-empty and the query has delivered a truthy session or a truthy
    error, a resolution with [undefined] counting as an error: after any run
    of query results from the mount, the loading view is rendered if and
    only if the query is disabled or no result so far carried such a value. *)
Theorem loading_until_a_value_arrives (sid : option string) (os : list Outcome) :
  let st := run os (mount sid) in
  isLoading st = negb (enabled (mount sid) && existsb carriesValue os)
  /\ (render st = Normal LoadingView <->
      enabled (mount sid) = false \/ existsb carriesValue os = false).
Proof.
  cbv zeta.
  assert (E : isLoading (run os (mount sid))
              = negb (enabled (mount sid) && existsb carriesValue os)).
  { rewrite isLoading_run by apply settled_effect. reflexivity. }
  split; [exact E|].
  unfold render. rewrite E.
  destruct (enabled (mount sid)), (existsb carriesValue os); simpl;
    try (split; [auto | reflexivity]).
  split; [|intros [|]; discriminate].
  destruct (ToBoolean (error _) || negb (ToBoolean (session _))); [discriminate|].
  destruct (ToBoolean (session _)); [|discriminate].
  destruct (renderDetails _); discriminate.
Qed.

(** X14.  A truthy error always wins: in whatever state an enabled query
    rejects with a truthy error, the screen shows the failure view, also
    when a session had been fetched before. *)
Theorem rejection_shows_failure (e : value) (st : State) :
  enabled st = true ->
  ToBoolean e = true ->
  render (deliver (Rejected e) st) = Normal FailureView
  /\ session (deliver (Rejected e) st) = session st.
Proof.
  intros Hen He. unfold deliver. rewrite Hen. unfold effect. simpl.
  rewrite He, orb_true_r. unfold render. simpl. rewrite He. split; reflexivity.
Qed.

(** X15.  With the loading flag clear, no error and a truthy session, the
    screen renders the success view, always with the payment details: the
    amount is [Number(amount_total) / 100], the currency its [toUpperCase].
    It does so exactly when [amount_total] converts to a primitive and the
    session's [currency] is a string; otherwise the render throws a
    [TypeError]. *)
Theorem success_view_needs_string_currency (st : State) :
  isLoading st = false ->
  ToBoolean (error st) = false ->
  ToBoolean (session st) = true ->
  (forall c n,
     OptGet (session st) "currency" = VStr c ->
     ToNumber (OptGet (session st) "amount_total") = Normal n ->
     render st
     = Normal (SuccessView
                 (Some (mkPaymentDetails (div n 100%float) (toUpperCase c)
                          (OptGet (session st) "payment_status")
                          (OptGet (session st) "customer_email")))))
  /\ (render st = Throw TypeError <->
      coercible (OptGet (session st) "amount_total") = false
      \/ forall c, OptGet (session st) "currency" <> VStr c).
Proof.
  intros Hl He Hs.
  assert (Get_s : forall k, Get (session st) k = Normal (OptGet (session st) k)).
  { intros k. destruct (session st); simpl in *; try discriminate; reflexivity. }
  assert (E : render st = (let* d := renderDetails (session st) in
                           Normal (SuccessView (Some d)))).
  { unfold render. rewrite Hl, He, Hs. reflexivity. }
  rewrite E. unfold renderDetails. rewrite !Get_s. simpl.
  pose proof (ToNumber_coercible (OptGet (session st) "amount_total")) as Hn.
  split.
  - intros c n Hc ->. simpl. rewrite Hc. reflexivity.
  - destruct (coercible (OptGet (session st) "amount_total")).
    + destruct Hn as (n & ->). simpl.
      destruct (OptGet (session st) "currency") eqn:Hc; simpl; split;
        try (intros _; right; intros c; discriminate); try reflexivity.
      * discriminate.
      * intros [Hf | Hf]; [discriminate | exfalso; exact (Hf s eq_refl)].
    + rewrite Hn. simpl. split; [auto | reflexivity].
Qed.

(** X16.  The success view never comes without payment details, and is
    never rendered while there is an error or no session. *)
Theorem success_view_always_has_details (st : State) (details : option PaymentDetails) :
  render st = Normal (SuccessView details) ->
  exists d, details = Some d
            /\ isLoading st = false
            /\ ToBoolean (error st) = false
            /\ ToBoolean (session st) = true.
Proof.
  intros Hr. pose proof (render_success_not_loading st details Hr) as Hl.
  destruct (render_not_loading st Hl) as (_ & Hd).
  destruct (Hd details Hr) as (Hs & He & d & -> & _). eauto.
Qed.

End CheckoutTraces.

(* ===================================================================== *)
(** ** Closed instances of the further properties *)
(* ===================================================================== *)

Section FurtherInstances.
Import JS ReactQuery SubscriptionManager ManagerEvents.

Lemma render_throws_iff_malformed_data_witness :
  render (H := ExampleHost.host) (loaded (VObj [("has_subscription", VBool false)]) VNull)
  = Throw TypeError.
Proof.
  pose proof (render_throws_iff_malformed_data (H := ExampleHost.host)
                (loaded (VObj [("has_subscription", VBool false)]) VNull)
                eq_refl eq_refl eq_refl) as (Hiff & _).
  apply Hiff. left. split; [reflexivity|]. left. intros s. discriminate.
Defined.

Lemma subscription_and_billing_cards_together_witness :
  exists l bill,
    render (H := ExampleHost.host) (loaded activeSubscription usage8of10)
    = Normal (LayoutView l)
    /\ billingSection l = Element bill
    /\ billingStatus bill = "Active".
Proof.
  assert (Hr : exists l, render (H := ExampleHost.host) (loaded activeSubscription usage8of10)
                         = Normal (LayoutView l))
    by (eexists; vm_compute; reflexivity).
  destruct Hr as (l & Hr). exists l.
  destruct (subscription_and_billing_cards_together (H := ExampleHost.host) _ l Hr)
    as [(_ & card & bill & s & Hsec & Hbill & Htext & Hstatus & _) | (Hf & _)];
    [|discriminate Hf].
  exists bill. split; [exact Hr|]. split; [exact Hbill|].
  rewrite Hstatus.
  assert (Hs : s = "active").
  { apply render_layout in Hr.
    apply renderLayout_Normal in Hr as (sec & ? & ? & Hsec' & _ & _ & [= ->]).
    destruct (renderSubscription_truthy (loaded activeSubscription usage8of10) sec
                eq_refl Hsec') as (card' & -> & Hb & _).
    simpl in Hsec. injection Hsec as <-. rewrite Hb in Htext.
    injection Htext as <-. reflexivity. }
  rewrite Hs. reflexivity.
Defined.


Lemma cancel_and_reactivate_send_id_verbatim_witness :
  network (handleReactivate (H := ExampleHost.host) (loaded activeSubscription usage8of10))
  = [mkRequest "/api/subscriptions/reactivate" "POST"
       [("Content-Type", "application/json")] (Some cancelBody_sub_123)].
Proof.
  pose proof (cancel_and_reactivate_send_id_verbatim (H := ExampleHost.host)
                (loaded activeSubscription usage8of10) "sub_123") as Hw.
  cbv zeta in Hw.
  destruct Hw as (Hnet & _); [discriminate | reflexivity | reflexivity |].
  exact Hnet.
Defined.

Lemma rejected_sync_or_reactivate_reenables_witness :
  reactivateButton
    (mutationSettled Reactivate (Rejected VNull)
       (handleReactivate (H := ExampleHost.host) (loaded activeSubscription usage8of10)))
  = mkButton HandleReactivate false "Reactivate Subscription".
Proof.
  pose proof (rejected_sync_or_reactivate_reenables (H := ExampleHost.host) Reactivate VNull
                (handleReactivate (H := ExampleHost.host)
                   (loaded activeSubscription usage8of10))) as Hw.
  cbv zeta in Hw.
  destruct Hw as (_ & _ & _ & Hb & _); [discriminate | reflexivity |].
  exact (Hb eq_refl).
Defined.

Lemma isCancelling_cleared_only_by_success_or_reload_witness :
  let st :=
    mutationSettled Cancel (Rejected VNull)
      (handleCancel (H := ExampleHost.host) (loaded activeSubscription usage8of10)) in
  let es :=
    [Click HandleSync; MutationSettles Sync (Resolved VNull);
     QuerySettles subscriptionKey (Resolved activeSubscription);
     Click HandleReactivate; MutationSettles Reactivate (Rejected VNull)] in
  isCancelling st = true
  /\ isCancelling (run (H := ExampleHost.host) es st) = true.
Proof.
  cbv zeta. split; [reflexivity|].
  refine (proj1 (isCancelling_cleared_only_by_success_or_reload (H := ExampleHost.host)
                   [Click HandleSync; MutationSettles Sync (Resolved VNull);
                    QuerySettles subscriptionKey (Resolved activeSubscription);
                    Click HandleReactivate; MutationSettles Reactivate (Rejected VNull)]
                   (mutationSettled Cancel (Rejected VNull)
                      (handleCancel (H := ExampleHost.host)
                         (loaded activeSubscription usage8of10)))
                   eq_refl _)).
  repeat constructor.
Defined.

Lemma success_refetches_behind_the_view_witness :
  let st := handleSync (H := ExampleHost.host) (loaded activeSubscription usage8of10) in
  let st' := mutationSettled Sync (Resolved VNull) st in
  isLoading (useQuery subscriptionKey (queryClient st')) = false
  /\ data (useQuery subscriptionKey (queryClient st')) = activeSubscription.
Proof.
  cbv zeta.
  pose proof (success_refetches_behind_the_view (H := ExampleHost.host) Sync VNull
                subscriptionKey
                (mkQuery activeSubscription VNull QSuccess false 0 false)
                (handleSync (H := ExampleHost.host) (loaded activeSubscription usage8of10))
                eq_refl (or_introl eq_refl) eq_refl) as Hw.
  cbv zeta in Hw. destruct Hw as (_ & Hd & Hl & _).
  split; [|exact Hd].
  apply Hl; discriminate.
Defined.

End FurtherInstances.

Section FurtherCheckoutInstances.
Import JS ReactQuery CheckoutSuccess CheckoutEvents.

Lemma rejection_shows_failure_witness :
  let paid := VObj [("amount_total", VNum 2900%float); ("currency", VStr "usd")] in
  let st := deliver (Resolved paid) (mount (Some "cs_test_1")) in
  enabled st = true
  /\ render (H := ExampleHost.host) (deliver (Rejected (VStr "offline")) st)
     = Normal FailureView
  /\ session (deliver (Rejected (VStr "offline")) st) = paid.
Proof.
  cbv zeta. split; [reflexivity|].
  exact (rejection_shows_failure (H := ExampleHost.host) (VStr "offline")
           (deliver (Resolved (VObj [("amount_total", VNum 2900%float);
                                     ("currency", VStr "usd")]))
              (mount (Some "cs_test_1")))
           eq_refl eq_refl).
Defined.

Lemma success_view_needs_string_currency_witness :
  render (H := ExampleHost.host)
    (deliver (Resolved (VObj [("amount_total", VNum 2900%float); ("currency", VStr "usd")]))
       (mount (Some "cs_test_1")))
  = Normal (SuccessView (Some (mkPaymentDetails 29%float "USD" VUndefined VUndefined)))
  /\ render (H := ExampleHost.host)
       (deliver (Resolved (VObj [("amount_total", VNum 2900%float)]))
          (mount (Some "cs_test_1")))
     = Throw TypeError.
Proof.
  split.
  - exact (proj1 (success_view_needs_string_currency (H := ExampleHost.host)
                    (deliver (Resolved (VObj [("amount_total", VNum 2900%float);
                                              ("currency", VStr "usd")]))
                       (mount (Some "cs_test_1")))
                    eq_refl eq_refl eq_refl) "usd" 2900%float eq_refl eq_refl).
  - apply (proj2 (success_view_needs_string_currency (H := ExampleHost.host)
                    (deliver (Resolved (VObj [("amount_total", VNum 2900%float)]))
                       (mount (Some "cs_test_1")))
                    eq_refl eq_refl eq_refl)).
    right. intros c. discriminate.
Defined.

Lemma success_view_always_has_details_witness :
  let paid := VObj [("amount_total", VNum 2900%float); ("currency", VStr "usd")] in
  let st := deliver (Resolved paid) (mount (Some "cs_test_1")) in
  exists details d,
    render (H := ExampleHost.host) st = Normal (SuccessView details)
    /\ details = Some d
    /\ currency d = "USD".
Proof.
  cbv zeta.
  assert (Hr : exists d,
             render (H := ExampleHost.host)
               (deliver (Resolved (VObj [("amount_total", VNum 2900%float);
                                         ("currency", VStr "usd")]))
                  (mount (Some "cs_test_1")))
             = Normal (SuccessView (Some d)) /\ currency d = "USD")
    by (eexists; split; [vm_compute; reflexivity | reflexivity]).
  destruct Hr as (d & Hr & Hc).
  destruct (success_view_always_has_details (H := ExampleHost.host) _ _ Hr)
    as (d' & Hd & _).
  exists (Some d), d. split; [exact Hr|]. split; [reflexivity | exact Hc].
Defined.

End FurtherCheckoutInstances.
